(** * Upgrade of legacy dist-plugin configuration

    A shallow embedding of [distgo/config/internal/legacy/legacy.go]: the
    legacy configuration structs, the single-or-list decoder of the [dist]
    key, the script helpers and [upgradeLegacyConfig] / [UpgradeConfig],
    followed by the properties the specification states about them.

    Go values are modelled as follows: [string] and [[]byte] as [string],
    slices as [list] (a nil slice is the empty list, which is all [len]
    can observe), maps as [gmap], pointers as [option], [interface{}]
    payloads as one inductive type per field, and a call that can return an
    error or panic as a [Result]. *)

From Stdlib Require Import Ascii String.
From stdpp Require Import gmap strings list fin_maps sorting pretty.

Local Arguments String.append !_ _ / : simpl nomatch.

(** ** Errors, panics and results *)

(** Error values as [github.com/pkg/errors] builds them.  The format string
    and its arguments are kept apart, as they are at the call site. *)
Inductive error : Type :=
  | errors_New (msg : string)
  | errors_Errorf (format : string) (args : list string)
  | errors_Wrapf (cause : error) (format : string) (args : list string)
  | errors_WithStack (cause : error).

(** The run-time panics the upgrade can raise. *)
Inductive panic : Type :=
  | NilPointerDereference
  | InterfaceConversion
  | AssignmentToNilMap.

Inductive Result (A : Type) : Type :=
  | Ok (a : A)
  | Err (e : error)
  | Panic (p : panic).
Arguments Ok {A} a.
Arguments Err {A} e.
Arguments Panic {A} p.

Global Instance Result_ret : MRet Result := @Ok.
Global Instance Result_bind : MBind Result := λ A B f r,
  match r with
  | Ok a => f a
  | Err e => Err e
  | Panic p => Panic p
  end.

(** [x, err := call; if err != nil { return nil, errors.Wrapf(err, format, args...) }] *)
Definition wrapf {A} (r : Result A) (format : string) (args : list string) : Result A :=
  match r with
  | Ok a => Ok a
  | Err e => Err (errors_Wrapf e format args)
  | Panic p => Panic p
  end.

(** The arguments an error (or one of its causes) was formatted with. *)
Fixpoint error_args (e : error) : list string :=
  match e with
  | errors_New _ => []
  | errors_Errorf _ args => args
  | errors_Wrapf cause _ args => args ++ error_args cause
  | errors_WithStack cause => error_args cause
  end.

(** The double quote and the line feed, which string literals here do not
    hold. *)
Definition dq : string := String (ascii_of_nat 34) "".
Definition nl : string := String (ascii_of_nat 10) "".

(** ** The parts of Go's [strings] and [fmt] packages the upgrade uses *)
Module strings.

Definition HasPrefix (s prefix : string) : bool := String.prefix prefix s.

(** [strings.HasSuffix]: some tail of [s] is [suffix]. *)
Fixpoint HasSuffix (s suffix : string) : bool :=
  bool_decide (s = suffix) ||
  match s with
  | EmptyString => false
  | String _ s' => HasSuffix s' suffix
  end.

(** [strings.Contains]: [substr] starts at some position of [s]. *)
Fixpoint Contains (s substr : string) : bool :=
  HasPrefix s substr ||
  match s with
  | EmptyString => false
  | String _ s' => Contains s' substr
  end.

(** The left-to-right scan of [strings.Replace]: [skip] counts the bytes
    of a replaced instance of [old] that are still to be dropped. *)
Fixpoint Replace_from (skip : nat) (s old new : string) : string :=
  match s with
  | EmptyString => EmptyString
  | String c s' =>
      match skip with
      | S n => Replace_from n s' old new
      | O =>
          if HasPrefix s old
          then new +:+ Replace_from (String.length old - 1) s' old new
          else String c (Replace_from 0 s' old new)
      end
  end.

(** [strings.Replace(s, old, new, -1)] for a non-empty [old]: every
    non-overlapping instance of [old], found from the left, is replaced
    by [new]. *)
Definition Replace (s old new : string) : string := Replace_from 0 s old new.

End strings.

(** ** Types of the libraries the configuration refers to *)

(** A decoded YAML value held in an [interface{}]. *)
#[local] Unset Elimination Schemes.
Inductive YamlValue : Type :=
  | YNull
  | YBool (b : bool)
  | YInt (z : Z)
  | YString (s : string)
  | YSeq (items : list YamlValue)
  | YMap (items : list (YamlValue * YamlValue)).
#[local] Set Elimination Schemes.

(** [yaml.MapSlice]: the items of a mapping, in document order. *)
Definition MapSlice : Type := list (YamlValue * YamlValue).

Module osarch.
Record OSArch : Type := mk { OS : string; Arch : string }.
End osarch.

Module matcher.
Record NamesPathsCfg : Type := mk { Names : list string; Paths : list string }.
End matcher.

(** [versionedconfig.ConfigWithLegacy] is a struct with the single field
    [Legacy bool] (YAML key legacy-config); the structs that embed it
    inline carry that field. *)

(** ** The legacy configuration (package [legacy]) *)

Module Build.
Record t : Type := mk {
  Skip : bool;
  Script : string;
  MainPkg : string;
  OutputDir : string;
  BuildArgsScript : string;
  VersionVar : string;
  Environment : gmap string string;
  OSArchs : list osarch.OSArch;
}.
End Build.

Module Run.
Record t : Type := mk { Args : list string }.
End Run.

Module Almanac.
Record t : Type := mk {
  Legacy : bool;
  Metadata : gmap string string;
  Tags : list string;
}.
Definition set_Legacy (b : bool) (a : t) : t := mk b (Metadata a) (Tags a).
End Almanac.

Module Publish.
Record t : Type := mk { GroupID : string; Almanac : Almanac.t }.
End Publish.

Module BinDist.
Record t : Type := mk {
  Legacy : bool;
  OmitInitSh : option bool;
  InitShTemplateFile : string;
}.
End BinDist.

Module ManualDist.
Record t : Type := mk { Legacy : bool; Extension : string }.
Definition set_Legacy (b : bool) (d : t) : t := mk b (Extension d).
End ManualDist.

Module OSArchBinDist.
Record t : Type := mk { Legacy : bool; OSArchs : list osarch.OSArch }.
Definition set_Legacy (b : bool) (d : t) : t := mk b (OSArchs d).
End OSArchBinDist.

Module SLSDist.
Record t : Type := mk {
  Legacy : bool;
  InitShTemplateFile : string;
  ManifestTemplateFile : string;
  ServiceArgs : string;
  ProductType : string;
  ManifestExtensions : gmap string YamlValue;
  Reloadable : bool;
  YMLValidationExclude : matcher.NamesPathsCfg;
}.
Definition set_Legacy (b : bool) (d : t) : t :=
  mk b (InitShTemplateFile d) (ManifestTemplateFile d) (ServiceArgs d)
     (ProductType d) (ManifestExtensions d) (Reloadable d)
     (YMLValidationExclude d).
End SLSDist.

Module RPMDist.
Record t : Type := mk {
  Legacy : bool;
  Release : string;
  ConfigFiles : list string;
  BeforeInstallScript : string;
  AfterInstallScript : string;
  AfterRemoveScript : string;
}.
Definition set_Legacy (b : bool) (d : t) : t :=
  mk b (Release d) (ConfigFiles d) (BeforeInstallScript d)
     (AfterInstallScript d) (AfterRemoveScript d).
End RPMDist.

(** [type DistInfoType string] and its constants. *)
Definition DistInfoType : Type := string.
Definition SLSDistType : DistInfoType := "sls".
Definition BinDistType : DistInfoType := "bin".
Definition RPMDistType : DistInfoType := "rpm".
Definition OSArchBinDistType : DistInfoType := "os-arch-bin".
Definition ManualDistType : DistInfoType := "manual".

Module DistInfo.
(** The dynamic value of the [Info interface{}] field: one of the typed
    dist structs [DistInfo.UnmarshalYAML] stores for a known type, nil,
    or whatever the default decoding produced. *)
Inductive InfoValue : Type :=
  | Info_nil
  | Info_SLSDist (d : SLSDist.t)
  | Info_BinDist (d : BinDist.t)
  | Info_ManualDist (d : ManualDist.t)
  | Info_OSArchBinDist (d : OSArchBinDist.t)
  | Info_RPMDist (d : RPMDist.t)
  | Info_yaml (v : YamlValue).

Record t : Type := mk { Type_ : string; Info : InfoValue }.
End DistInfo.

Module Dist.
Record t : Type := mk {
  OutputDir : string;
  InputDir : string;
  InputProducts : list string;
  Script : string;
  DistType : DistInfo.t;
  Publish : Publish.t;
}.
End Dist.

Definition RawDistConfigs : Type := list Dist.t.

Module DockerDep.
Record t : Type := mk { Product : string; Type_ : string; TargetFile : string }.
End DockerDep.

Module SLSDockerImageInfo.
Record t : Type := mk {
  Legacy : bool;
  GroupID : string;
  ProuductType : string;
  Extensions : gmap string YamlValue;
}.
Definition set_Legacy (b : bool) (d : t) : t :=
  mk b (GroupID d) (ProuductType d) (Extensions d).
End SLSDockerImageInfo.

Module DockerImageInfo.
(** The dynamic value of the [Data interface{}] field. *)
Inductive DataValue : Type :=
  | Data_nil
  | Data_SLSDockerImageInfo (d : SLSDockerImageInfo.t)
  | Data_yaml (v : YamlValue).

Record t : Type := mk { Type_ : string; Data : DataValue }.
End DockerImageInfo.

Module DockerImage.
Record t : Type := mk {
  Repository : string;
  Tag : string;
  ContextDir : string;
  Deps : list DockerDep.t;
  Info : DockerImageInfo.t;
  BuildArgsScript : string;
}.
End DockerImage.

Module Product.
Record t : Type := mk {
  Build : Build.t;
  Run : Run.t;
  Dist : RawDistConfigs;
  DockerImages : list DockerImage.t;
  DefaultPublish : Publish.t;
}.
Definition set_Dist (d : RawDistConfigs) (p : t) : t :=
  mk (Build p) (Run p) d (DockerImages p) (DefaultPublish p).
End Product.

Module Project.
Record t : Type := mk {
  Legacy : bool;
  Products : gmap string Product.t;
  BuildOutputDir : string;
  DistOutputDir : string;
  DistScriptInclude : string;
  GroupID : string;
  Exclude : matcher.NamesPathsCfg;
}.
End Project.

(** ** The current configuration (package [v0]) *)

(** Modelled from the spec: the struct declarations of package
    [distgo/config/internal/v0] and the identifier types of package
    [distgo] are not part of the sources at hand.  Each struct below has
    the fields [upgradeLegacyConfig] reads or writes, with the pointer,
    slice and map types its assignments require; [ProductID], [DistID],
    [DockerID], [ProductDistID] and [PublisherTypeID] are string types. *)
Module v0.

Module BuildConfig.
Record t : Type := mk {
  MainPkg : option string;
  OutputDir : option string;
  BuildArgsScript : option string;
  VersionVar : option string;
  Environment : option (gmap string string);
  OSArchs : option (list osarch.OSArch);
}.
Definition empty : t := mk None None None None None None.
End BuildConfig.

Module RunConfig.
Record t : Type := mk { Args : option (list string) }.
End RunConfig.

Module DisterConfig.
Record t : Type := mk {
  Type_ : option string;
  Config : option MapSlice;
  Script : option string;
}.
Definition empty : t := mk None None None.
Definition set_Type (v : option string) (c : t) : t := mk v (Config c) (Script c).
Definition set_Config (v : option MapSlice) (c : t) : t := mk (Type_ c) v (Script c).
Definition set_Script (v : option string) (c : t) : t := mk (Type_ c) (Config c) v.
End DisterConfig.

Module DistConfig.
Record t : Type := mk {
  OutputDir : option string;
  Disters : option (gmap string DisterConfig.t);
}.
End DistConfig.

Module PublisherConfig.
Record t : Type := mk { Config : option MapSlice }.
End PublisherConfig.

Module PublishConfig.
Record t : Type := mk {
  GroupID : option string;
  PublishInfo : option (gmap string PublisherConfig.t);
}.
Definition empty : t := mk None None.
End PublishConfig.

Module DockerBuilderConfig.
Record t : Type := mk {
  Type_ : option string;
  Config : option MapSlice;
  ContextDir : option string;
  InputDists : option (list string);
  TagTemplates : option (list string);
}.
Definition empty : t := mk None None None None None.
Definition set_Type (v : option string) (c : t) : t :=
  mk v (Config c) (ContextDir c) (InputDists c) (TagTemplates c).
Definition set_Config (v : option MapSlice) (c : t) : t :=
  mk (Type_ c) v (ContextDir c) (InputDists c) (TagTemplates c).
Definition set_ContextDir (v : option string) (c : t) : t :=
  mk (Type_ c) (Config c) v (InputDists c) (TagTemplates c).
Definition set_InputDists (v : option (list string)) (c : t) : t :=
  mk (Type_ c) (Config c) (ContextDir c) v (TagTemplates c).
Definition set_TagTemplates (v : option (list string)) (c : t) : t :=
  mk (Type_ c) (Config c) (ContextDir c) (InputDists c) v.
End DockerBuilderConfig.

Module DockerConfig.
Record t : Type := mk {
  DockerBuildersConfig : option (gmap string DockerBuilderConfig.t);
}.
End DockerConfig.

Module ProductConfig.
Record t : Type := mk {
  Build : option BuildConfig.t;
  Run : option RunConfig.t;
  Dist : option DistConfig.t;
  Publish : option PublishConfig.t;
  Docker : option DockerConfig.t;
  Dependencies : option (list string);
}.
Definition empty : t := mk None None None None None None.
End ProductConfig.

Module ProjectConfig.
Record t : Type := mk {
  Products : option (gmap string ProductConfig.t);
  ProductDefaults : ProductConfig.t;
  ScriptIncludes : string;
  Exclude : matcher.NamesPathsCfg;
}.
End ProjectConfig.

End v0.

(** ** Plugin factories (package [distgo]) *)

(** The [ConfigUpgrader] interface: its one method [UpgradeConfig]. *)
Record ConfigUpgrader : Type := {
  ConfigUpgrader_UpgradeConfig : string → Result string;
}.

(** Of [DisterFactory], [DockerBuilderFactory] and [PublisherFactory] the
    upgrade calls the method [ConfigUpgrader] only. *)
Record DisterFactory : Type := {
  DisterFactory_ConfigUpgrader : string → Result ConfigUpgrader;
}.
Record DockerBuilderFactory : Type := {
  DockerBuilderFactory_ConfigUpgrader : string → Result ConfigUpgrader;
}.
Record PublisherFactory : Type := {
  PublisherFactory_ConfigUpgrader : string → Result ConfigUpgrader;
}.

(** ** What is taken from outside the package *)

(** [yaml.Marshal] and [yaml.UnmarshalStrict] of [gopkg.in/yaml.v2] at the
    types the upgrade uses them at, and the type names the dister and
    docker-builder packages export ([bin.TypeName], [manual.TypeName],
    [osarchbin.TypeName], [defaultdockerbuilder.TypeName]), which are
    declared outside the sources at hand. *)
Record Outside : Type := {
  yaml_Marshal_SLSDist : SLSDist.t → Result string;
  yaml_Marshal_OSArchBinDist : OSArchBinDist.t → Result string;
  yaml_Marshal_ManualDist : ManualDist.t → Result string;
  yaml_Marshal_RPMDist : RPMDist.t → Result string;
  yaml_Marshal_Almanac : Almanac.t → Result string;
  yaml_Marshal_SLSDockerImageInfo : SLSDockerImageInfo.t → Result string;
  yaml_Marshal_ProjectConfig : v0.ProjectConfig.t → Result string;
  yaml_UnmarshalStrict_MapSlice : string → Result MapSlice;
  yaml_UnmarshalStrict_Project : string → Result Project.t;
  bin_TypeName : string;
  manual_TypeName : string;
  osarchbin_TypeName : string;
  defaultdockerbuilder_TypeName : string;
}.

(** ** Script helpers *)

Definition stringPtr (s : string) : option string := Some s.

(** [appendToScript] appends the provided string to the given script.  If
    the given script is empty, it is first given the line [#!/bin/bash].
    The resulting script ends in a newline. *)
Definition appendToScript (script append : string) : string :=
  let script :=
    if decide (script = "") then script +:+ ("#!/bin/bash" +:+ nl) else script in
  let script := script +:+ append in
  if negb (strings.HasSuffix script nl) then script +:+ nl else script.

(** The two statements that precede every append in the upgrade:
    [if cfg.Script == nil { cfg.Script = stringPtr(empty) }] and
    [cfg.Script = stringPtr(appendToScript( *cfg.Script, append))]. *)
Definition appendToScriptPtr (script : option string) (append : string) : option string :=
  let script := match script with None => stringPtr "" | Some _ => script end in
  stringPtr (appendToScript (default "" script) append).

Definition inputDirScriptContent (inputDir : string) : string :=
  ("### START: auto-generated back-compat code for " +:+ dq +:+ "input-dir" +:+ dq +:+ " behavior ###" +:+ nl)
  +:+ ("cp -r " +:+ dq +:+ "$PROJECT_DIR" +:+ dq +:+ "/" +:+ inputDir +:+ "/. " +:+ dq +:+ "$DIST_WORK_DIR" +:+ dq +:+ nl
       +:+ "find " +:+ dq +:+ "$DIST_WORK_DIR" +:+ dq +:+ " -type f -name .gitkeep -exec rm '{}' \;")
  +:+ (nl +:+ "### END: auto-generated back-compat code for " +:+ dq +:+ "input-dir" +:+ dq +:+ " behavior ###").

Definition binDistInitShScript : string := String.concat nl [
    "### START: auto-generated back-compat code for " +:+ dq +:+ "omit-init-sh: false" +:+ dq +:+ " behavior for bin dist ###";
    "read -d '' GODELUPGRADED_scriptContent <<" +:+ dq +:+ "EOF" +:+ dq;
    "#!/bin/bash";
    "set -euo pipefail";
    "BIN_DIR=" +:+ dq +:+ "$(cd " +:+ dq +:+ "$(dirname " +:+ dq +:+ "$0" +:+ dq +:+ ")" +:+ dq +:+ " && pwd)" +:+ dq;
    "# determine OS";
    "OS=" +:+ dq +:+ dq;
    "case " +:+ dq +:+ "$(uname)" +:+ dq +:+ " in";
    "  Darwin*" +:+ ")";
    "    OS=darwin";
    "    ;;";
    "  Linux*" +:+ ")";
    "    OS=linux";
    "    ;;";
    "  *" +:+ ")";
    "    echo " +:+ dq +:+ "Unsupported operating system: $(uname)" +:+ dq;
    "    exit 1";
    "    ;;";
    "esac";
    "# determine executable location based on OS";
    "CMD=$BIN_DIR/$OS-amd64/{{.ProductName}}";
    "# verify that executable exists";
    "if [ ! -e " +:+ dq +:+ "$CMD" +:+ dq +:+ " ]; then";
    "    echo " +:+ dq +:+ "Executable $CMD does not exist" +:+ dq;
    "    exit 1";
    "fi";
    "# invoke appropriate executable";
    "$CMD " +:+ dq +:+ "$@" +:+ dq;
    "EOF";
    "GODELUPGRADED_templated=${GODELUPGRADED_scriptContent//\{\{.ProductName\}\}/$PRODUCT}";
    "echo " +:+ dq +:+ "$GODELUPGRADED_templated" +:+ dq +:+ " > " +:+ dq +:+ "$DIST_WORK_DIR" +:+ dq +:+ "/bin/" +:+ dq +:+ "$PRODUCT" +:+ dq +:+ ".sh";
    "chmod 755 " +:+ dq +:+ "$DIST_WORK_DIR" +:+ dq +:+ "/bin/" +:+ dq +:+ "$PRODUCT" +:+ dq +:+ ".sh";
    "### END: auto-generated back-compat code for " +:+ dq +:+ "omit-init-sh: false" +:+ dq +:+ " behavior for bin dist ###"
  ].

(** The constant [isSnapshotScript] of [translateEnvVars]; its last line
    ends in a newline. *)
Definition isSnapshotScript : string := String.concat nl [
    "### START: auto-generated back-compat code for " +:+ dq +:+ "IS_SNAPSHOT" +:+ dq +:+ " variable ###";
    "IS_SNAPSHOT=0";
    "if [[ $VERSION =~ .+g[-+.]?[a-fA-F0-9]{3,}$ ]]; then IS_SNAPSHOT=1; fi";
    "### END: auto-generated back-compat code for " +:+ dq +:+ "IS_SNAPSHOT" +:+ dq +:+ " variable ###";
    ""
  ].

(** [fmt.Sprintf] with the formats [$%s] and [${%s}] is a concatenation. *)
Definition translateVar (in_ oldVar newVar : string) : string :=
  let out := in_ in
  let out := strings.Replace out ("$" +:+ oldVar) ("$" +:+ newVar) in
  let out := strings.Replace out ("${" +:+ oldVar +:+ "}") ("${" +:+ newVar +:+ "}") in
  out.

Definition translateEnvVars (in_ : string) : string :=
  let out := in_ in
  let out :=
    if strings.Contains out "IS_SNAPSHOT" then isSnapshotScript +:+ out else out in
  let out := translateVar out "DIST_DIR" "DIST_WORK_DIR" in
  out.

Definition addDepIfNotPresent (deps : list string) (productID : string) : list string :=
  let productIDPresent := bool_decide (productID ∈ deps) in
  if productIDPresent then deps else deps ++ [productID].

(** ** The single-or-list decoder of the [dist] key *)

(** The [unmarshal] callback the YAML library hands to [UnmarshalYAML]: what
    decoding the node at hand into a [[]Dist] and into a [Dist] gives. *)
Record unmarshalFunc : Type := {
  unmarshal_Dists : Result (list Dist.t);
  unmarshal_Dist : Result Dist.t;
}.

Definition dist_at_least_one : error :=
  errors_New "if `dist` key is specified, there must be at least one dist".

(** [RawDistConfigs.UnmarshalYAML]: the value stored in [*out], or the error
    returned. *)
Definition RawDistConfigs_UnmarshalYAML (unmarshal : unmarshalFunc) : Result RawDistConfigs :=
  match unmarshal_Dists unmarshal with
  | Ok multiple =>
      if decide (length multiple = 0) then Err dist_at_least_one
      else Ok multiple
  | Panic p => Panic p
  | Err _ =>
      match unmarshal_Dist unmarshal with
      | Err err => Err err
      | Panic p => Panic p
      | Ok single => Ok [single]
      end
  end.


(** ** The type-tagged decoders of the [dist-type] and docker [info] keys *)

(** The [unmarshal] callback handed to [DistInfo.UnmarshalYAML]: what
    decoding the node at hand gives into the alias of [DistInfo] (the
    default decoding, with whatever it leaves in [Info]) and into each
    [typedRawConfig], a struct of a [Type string] and a typed [Info]. *)
Record unmarshalDistInfoFunc : Type := {
  unmarshal_rawDistInfoConfigAlias : Result DistInfo.t;
  unmarshal_typedSLSDist : Result (string * SLSDist.t);
  unmarshal_typedBinDist : Result (string * BinDist.t);
  unmarshal_typedManualDist : Result (string * ManualDist.t);
  unmarshal_typedOSArchBinDist : Result (string * OSArchBinDist.t);
  unmarshal_typedRPMDist : Result (string * RPMDist.t);
}.

(** [DistInfo.UnmarshalYAML]: the value stored in [*cfg], or the error
    returned. *)
Definition DistInfo_UnmarshalYAML (unmarshal : unmarshalDistInfoFunc) : Result DistInfo.t :=
  rawDistInfoConfig ← unmarshal_rawDistInfoConfigAlias unmarshal;
  let type := DistInfo.Type_ rawDistInfoConfig in
  if decide (type = SLSDistType) then
    rawSLS ← unmarshal_typedSLSDist unmarshal;
    Ok (DistInfo.mk type (DistInfo.Info_SLSDist rawSLS.2))
  else if decide (type = BinDistType) then
    rawBin ← unmarshal_typedBinDist unmarshal;
    Ok (DistInfo.mk type (DistInfo.Info_BinDist rawBin.2))
  else if decide (type = ManualDistType) then
    rawManual ← unmarshal_typedManualDist unmarshal;
    Ok (DistInfo.mk type (DistInfo.Info_ManualDist rawManual.2))
  else if decide (type = OSArchBinDistType) then
    rawOSArchBin ← unmarshal_typedOSArchBinDist unmarshal;
    Ok (DistInfo.mk type (DistInfo.Info_OSArchBinDist rawOSArchBin.2))
  else if decide (type = RPMDistType) then
    rawRPM ← unmarshal_typedRPMDist unmarshal;
    Ok (DistInfo.mk type (DistInfo.Info_RPMDist rawRPM.2))
  else Ok rawDistInfoConfig.



(** ** Zero values *)

Definition Almanac_zero : Almanac.t := Almanac.mk false ∅ [].
Definition Publish_zero : Publish.t := Publish.mk "" Almanac_zero.
Definition Build_zero : Build.t := Build.mk false "" "" "" "" "" ∅ [].
Definition Run_zero : Run.t := Run.mk [].
Definition Product_zero : Product.t :=
  Product.mk Build_zero Run_zero [] [] Publish_zero.
Definition Project_zero : Project.t :=
  Project.mk false ∅ "" "" "" "" (matcher.mk [] []).

(** ** Loops that can return early *)

(** [for _, x := range l { ... }] over a state [b], left when the body
    returns an error or panics. *)
Fixpoint forRange {A B : Type} (body : B → A → Result B) (l : list A) (b : B) : Result B :=
  match l with
  | [] => Ok b
  | x :: l' => b' ← body b x; forRange body l' b'
  end.

(** [for i, x := range l { ... }], the index starting from [i]. *)
Fixpoint forRangeIndexed {A B : Type} (body : B → nat → A → Result B)
    (i : nat) (l : list A) (b : B) : Result B :=
  match l with
  | [] => Ok b
  | x :: l' => b' ← body b i x; forRangeIndexed body (S i) l' b'
  end.

(** ** The upgrade *)

Section upgrade.
Context (O : Outside).
Context (disterFactory : DisterFactory).
Context (dockerBuilderFactory : DockerBuilderFactory).
Context (publisherFactory : PublisherFactory).

(** [if s != empty { field = stringPtr(s) }] on a field that is nil. *)
Definition ptrUnlessEmpty (s : string) : option string :=
  if decide (s = "") then None else stringPtr s.

Definition build_script_unsupported : string :=
  "dist-plugin legacy configuration sets " +:+ dq +:+ "script" +:+ dq +:+
  " field for the build configuration for %s, but build scripts are no longer supported".

(** The build section of the loop body: the value of [product.Build]. *)
Definition upgradeBuild (k : string) (legacyBuild : Build.t) : Result (option v0.BuildConfig.t) :=
  if negb (Build.Skip legacyBuild) then
    if decide (Build.Script legacyBuild = "") then
      Ok (Some {|
        v0.BuildConfig.MainPkg := ptrUnlessEmpty (Build.MainPkg legacyBuild);
        v0.BuildConfig.OutputDir := ptrUnlessEmpty (Build.OutputDir legacyBuild);
        v0.BuildConfig.BuildArgsScript := ptrUnlessEmpty (Build.BuildArgsScript legacyBuild);
        v0.BuildConfig.VersionVar := ptrUnlessEmpty (Build.VersionVar legacyBuild);
        v0.BuildConfig.Environment :=
          if bool_decide (0 < size (Build.Environment legacyBuild))
          then Some (Build.Environment legacyBuild) else None;
        v0.BuildConfig.OSArchs :=
          if bool_decide (0 < length (Build.OSArchs legacyBuild))
          then Some (Build.OSArchs legacyBuild) else None;
      |})
    else Err (errors_Errorf build_script_unsupported [k])
  else Ok None.

(** The run section: the value of [product.Run]. *)
Definition upgradeRun (legacyRun : Run.t) : option v0.RunConfig.t :=
  if bool_decide (0 < length (Run.Args legacyRun))
  then Some {| v0.RunConfig.Args := Some (Run.Args legacyRun) |}
  else None.

(** The dist entry written when the legacy configuration has none. *)
Definition defaultOSArchBinDist (osArchs : list osarch.OSArch) : Dist.t := {|
  Dist.OutputDir := "";
  Dist.InputDir := "";
  Dist.InputProducts := [];
  Dist.Script := "";
  Dist.DistType := {|
    DistInfo.Type_ := OSArchBinDistType;
    DistInfo.Info := DistInfo.Info_OSArchBinDist {|
      OSArchBinDist.Legacy := true;
      OSArchBinDist.OSArchs := osArchs;
    |};
  |};
  Dist.Publish := Publish_zero;
|}.

(** The value of [legacyProduct.Dist] after the default has been added.
    The condition reads [product.Build.OSArchs] once [len(legacyProduct.Dist) == 0]
    holds, whether or not [product.Build] has been set. *)
Definition defaultDist (legacyDists : RawDistConfigs) (productBuild : option v0.BuildConfig.t)
    : Result RawDistConfigs :=
  if decide (length legacyDists = 0) then
    match productBuild with
    | None => Panic NilPointerDereference
    | Some build =>
        match v0.BuildConfig.OSArchs build with
        | Some osArchs =>
            if bool_decide (0 < length osArchs)
            then Ok [defaultOSArchBinDist osArchs]
            else Ok legacyDists
        | None => Ok legacyDists
        end
    end
  else Ok legacyDists.

(** The [switch distType]: [upgradedDisterCfg] and [legacyDisterCfgBytes]
    after it. *)
Definition upgradeDistType (k : string) (legacyDist : Dist.t)
    : Result (v0.DisterConfig.t * string) :=
  let distType : DistInfoType := DistInfo.Type_ (Dist.DistType legacyDist) in
  let info := DistInfo.Info (Dist.DistType legacyDist) in
  if decide (distType = SLSDistType) then
    match info with
    | DistInfo.Info_SLSDist slsDist =>
        cfgBytes ← wrapf (yaml_Marshal_SLSDist O (SLSDist.set_Legacy true slsDist))
                    "failed to marshal legacy SLS dist configuration for %q" [k];
        Ok (v0.DisterConfig.set_Type (stringPtr "sls") v0.DisterConfig.empty, cfgBytes)
    | _ => Panic InterfaceConversion
    end
  else if decide (distType = BinDistType) then
    match info with
    | DistInfo.Info_BinDist binDist =>
        let upgradedDisterCfg :=
          v0.DisterConfig.set_Type (stringPtr (bin_TypeName O)) v0.DisterConfig.empty in
        match BinDist.OmitInitSh binDist with
        | Some false =>
            if decide (BinDist.InitShTemplateFile binDist = "") then
              Ok (v0.DisterConfig.set_Script
                    (appendToScriptPtr (v0.DisterConfig.Script upgradedDisterCfg)
                                       binDistInitShScript)
                    upgradedDisterCfg, "")
            else
              Err (errors_Errorf
                "bin dist for product %q specifies a custom init.sh template file, which is no longer supported"
                [k])
        | _ => Ok (upgradedDisterCfg, "")
        end
    | _ => Panic InterfaceConversion
    end
  else if decide (distType = OSArchBinDistType) then
    match info with
    | DistInfo.Info_OSArchBinDist osArchBinDist =>
        cfgBytes ← wrapf (yaml_Marshal_OSArchBinDist O (OSArchBinDist.set_Legacy true osArchBinDist))
                    "failed to marshal legacy os-arch-bin dist configuration for %q" [k];
        Ok (v0.DisterConfig.set_Type (stringPtr (osarchbin_TypeName O)) v0.DisterConfig.empty,
            cfgBytes)
    | _ => Panic InterfaceConversion
    end
  else if decide (distType = ManualDistType) then
    match info with
    | DistInfo.Info_ManualDist manualDist =>
        cfgBytes ← wrapf (yaml_Marshal_ManualDist O (ManualDist.set_Legacy true manualDist))
                    "failed to marshal legacy manual dist configuration for %q" [k];
        Ok (v0.DisterConfig.set_Type (stringPtr (manual_TypeName O)) v0.DisterConfig.empty,
            cfgBytes)
    | _ => Panic InterfaceConversion
    end
  else if decide (distType = RPMDistType) then
    match info with
    | DistInfo.Info_RPMDist rpmDist =>
        cfgBytes ← wrapf (yaml_Marshal_RPMDist O (RPMDist.set_Legacy true rpmDist))
                    "failed to marshal legacy rpm dist configuration for %q" [k];
        Ok (v0.DisterConfig.set_Type (stringPtr "rpm") v0.DisterConfig.empty, cfgBytes)
    | _ => Panic InterfaceConversion
    end
  else
    Err (errors_Errorf "product %q specifies unsupported dist type %q" [k; distType]).

(** [if len(legacyDisterCfgBytes) > 0 { ... }]: the plugin's upgrader
    turns the marshalled legacy payload into the dister's [Config]. *)
Definition upgradeDisterConfig (k : string) (distType : DistInfoType)
    (upgradedDisterCfg : v0.DisterConfig.t) (legacyDisterCfgBytes : string)
    : Result v0.DisterConfig.t :=
  if bool_decide (0 < String.length legacyDisterCfgBytes) then
    upgrader ← wrapf (DisterFactory_ConfigUpgrader disterFactory distType)
                 "no upgrader found for legacy dister for product %q" [k];
    upgradedBytes ← wrapf (ConfigUpgrader_UpgradeConfig upgrader legacyDisterCfgBytes)
                      "failed to upgrade legacy configuration for dister for product %q" [k];
    cfgMapSlice ← wrapf (yaml_UnmarshalStrict_MapSlice O upgradedBytes)
                    "failed to unmarshal upgraded dist configuration for %q as yaml.MapSlice" [k];
    Ok (v0.DisterConfig.set_Config (Some cfgMapSlice) upgradedDisterCfg)
  else Ok upgradedDisterCfg.

(** The script of the dister after the input-dir and script fields. *)
Definition upgradeDistScript (legacyDist : Dist.t) (upgradedDisterCfg : v0.DisterConfig.t)
    : v0.DisterConfig.t :=
  let upgradedDisterCfg :=
    if decide (Dist.InputDir legacyDist = "") then upgradedDisterCfg
    else v0.DisterConfig.set_Script
           (appendToScriptPtr (v0.DisterConfig.Script upgradedDisterCfg)
                              (inputDirScriptContent (Dist.InputDir legacyDist)))
           upgradedDisterCfg in
  if decide (Dist.Script legacyDist = "") then upgradedDisterCfg
  else v0.DisterConfig.set_Script
         (appendToScriptPtr (v0.DisterConfig.Script upgradedDisterCfg)
                            (translateEnvVars (Dist.Script legacyDist)))
         upgradedDisterCfg.

(** The value of [product.Dependencies] after the input-products field. *)
Definition upgradeInputProducts (legacyDist : Dist.t) : option (list string) :=
  if bool_decide (0 < length (Dist.InputProducts legacyDist))
  then Some (foldl addDepIfNotPresent [] (Dist.InputProducts legacyDist))
  else None.

(** The publish configuration of the dist entry: the value of
    [product.Publish] after the dist section. *)
Definition upgradeDistPublish (k : string) (legacyPublish : Publish.t)
    : Result (option v0.PublishConfig.t) :=
  let almanac := Publish.Almanac legacyPublish in
  let publishCfg : option v0.PublishConfig.t :=
    if decide (Publish.GroupID legacyPublish = "") then None
    else Some {|
      v0.PublishConfig.GroupID := stringPtr (Publish.GroupID legacyPublish);
      v0.PublishConfig.PublishInfo := None;
    |} in
  if bool_decide (0 < length (Almanac.Tags almanac))
     || bool_decide (0 < size (Almanac.Metadata almanac)) then
    let publishCfg := default v0.PublishConfig.empty publishCfg in
    let publishInfo := default ∅ (v0.PublishConfig.PublishInfo publishCfg) in
    legacyPublisherBytes ←
      wrapf (yaml_Marshal_Almanac O (Almanac.set_Legacy true almanac))
        "failed to marshal legacy Almanac publish configuration for product %q" [k];
    upgrader ←
      wrapf (PublisherFactory_ConfigUpgrader publisherFactory "artifactory-almanac")
        "no upgrader found for legacy publisher for product %q" [k];
    upgradedBytes ←
      wrapf (ConfigUpgrader_UpgradeConfig upgrader legacyPublisherBytes)
        "failed to upgrade legacy configuration for publisher for product %q" [k];
    cfgMapSlice ←
      wrapf (yaml_UnmarshalStrict_MapSlice O upgradedBytes)
        "failed to unmarshal upgraded publisher configuration for %q as yaml.MapSlice" [k];
    Ok (Some {|
      v0.PublishConfig.GroupID := v0.PublishConfig.GroupID publishCfg;
      v0.PublishConfig.PublishInfo :=
        Some (<["artifactory-almanac" := {| v0.PublisherConfig.Config := Some cfgMapSlice |}]>
                publishInfo);
    |})
  else Ok publishCfg.

Definition multiple_dists_unsupported : string :=
  "product %q specifies more than 1 dist configuration and migrations are not supported for these configurations".

(** The dist section of the loop body, [if len(legacyProduct.Dist) > 0 { ... }]:
    the values of [product.Dist], [product.Dependencies] and
    [product.Publish] after it.  [legacyDist] is [legacyProduct.Dist[0]]. *)
Definition upgradeDist (k : string) (legacyDists : RawDistConfigs)
    : Result (option v0.DistConfig.t * option (list string) * option v0.PublishConfig.t) :=
  match legacyDists with
  | [] => Ok (None, None, None)
  | legacyDist :: _ =>
      if bool_decide (1 < length legacyDists) then
        Err (errors_Errorf multiple_dists_unsupported [k])
      else
        let distType : DistInfoType := DistInfo.Type_ (Dist.DistType legacyDist) in
        '(upgradedDisterCfg, legacyDisterCfgBytes) ← upgradeDistType k legacyDist;
        upgradedDisterCfg ←
          upgradeDisterConfig k distType upgradedDisterCfg legacyDisterCfgBytes;
        let upgradedDisterCfg := upgradeDistScript legacyDist upgradedDisterCfg in
        let dependencies := upgradeInputProducts legacyDist in
        match v0.DisterConfig.Type_ upgradedDisterCfg with
        | None => Panic NilPointerDereference
        | Some typeName =>
            let productDist := {|
              v0.DistConfig.OutputDir := ptrUnlessEmpty (Dist.OutputDir legacyDist);
              v0.DistConfig.Disters := Some {[ typeName := upgradedDisterCfg ]};
            |} in
            publishCfg ← upgradeDistPublish k (Dist.Publish legacyDist);
            Ok (Some productDist, dependencies, publishCfg)
        end
  end.

(** The body of the loop over the dependencies of a docker image, on the
    builder's [InputDists] and the product's [Dependencies]. *)
Definition upgradeDockerDep (k : string)
    (st : option (list string) * option (list string)) (currLegacyDockerDep : DockerDep.t)
    : Result (option (list string) * option (list string)) :=
  let '(inputDists, dependencies) := st in
  let dockerDepType := DockerDep.Type_ currLegacyDockerDep in
  inputDists ←
    (if decide (dockerDepType = "docker") then Ok inputDists
     else if decide (dockerDepType = "bin" ∨ dockerDepType = "sls") then
       let inputDists := default [] inputDists in
       let inputDistID := DockerDep.Product currLegacyDockerDep +:+ "." +:+ dockerDepType in
       let inputDistIDPresent := bool_decide (inputDistID ∈ inputDists) in
       Ok (Some (if inputDistIDPresent then inputDists else inputDists ++ [inputDistID]))
     else
       Err (errors_Errorf
         "product %q has a Docker image configuration that declares a Docker dependency of type %q, which is not supported"
         [k; dockerDepType]));
  let dependencies := default [] dependencies in
  let currLegacyDockerDepProductID := DockerDep.Product currLegacyDockerDep in
  Ok (inputDists,
      Some (if decide (currLegacyDockerDepProductID = k) then dependencies
            else addDepIfNotPresent dependencies (DockerDep.Product currLegacyDockerDep))).

(** The builder type and configuration of a docker image. *)
Definition upgradeDockerImageInfo (k : string) (info : DockerImageInfo.t)
    (upgradedDockerBuilderConfig : v0.DockerBuilderConfig.t)
    : Result v0.DockerBuilderConfig.t :=
  if decide (DockerImageInfo.Type_ info = "sls") then
    let upgradedDockerBuilderConfig :=
      v0.DockerBuilderConfig.set_Type (stringPtr "sls") upgradedDockerBuilderConfig in
    match DockerImageInfo.Data info with
    | DockerImageInfo.Data_SLSDockerImageInfo dockerImageInfo =>
        legacyDockerBuilderCfgBytes ←
          wrapf (yaml_Marshal_SLSDockerImageInfo O
                   (SLSDockerImageInfo.set_Legacy true dockerImageInfo))
            "failed to marshal legacy sls docker builder configuration for %q" [k];
        if bool_decide (0 < String.length legacyDockerBuilderCfgBytes) then
          upgrader ←
            wrapf (DockerBuilderFactory_ConfigUpgrader dockerBuilderFactory
                     (DockerImageInfo.Type_ info))
              "no upgrader found for legacy dockerbuilder for product %q" [k];
          upgradedBytes ←
            wrapf (ConfigUpgrader_UpgradeConfig upgrader legacyDockerBuilderCfgBytes)
              "failed to upgrade legacy configuration for dockerbuilder for product %q" [k];
          cfgMapSlice ←
            wrapf (yaml_UnmarshalStrict_MapSlice O upgradedBytes)
              "failed to unmarshal upgraded dockerbuilder configuration for %q as yaml.MapSlice" [k];
          Ok (v0.DockerBuilderConfig.set_Config (Some cfgMapSlice) upgradedDockerBuilderConfig)
        else Ok upgradedDockerBuilderConfig
    | _ => Panic InterfaceConversion
    end
  else
    Ok (v0.DockerBuilderConfig.set_Type (stringPtr (defaultdockerbuilder_TypeName O))
          upgradedDockerBuilderConfig).

(** The body of the loop over the docker images, on the builders map and
    the product's [Dependencies]. *)
Definition upgradeDockerImage (k : string)
    (st : gmap string v0.DockerBuilderConfig.t * option (list string))
    (i : nat) (legacyDockerImage : DockerImage.t)
    : Result (gmap string v0.DockerBuilderConfig.t * option (list string)) :=
  let '(upgradedDockerBuildersConfig, dependencies) := st in
  let upgradedDockerBuilderConfig := v0.DockerBuilderConfig.empty in
  let upgradedDockerBuilderConfig :=
    if decide (DockerImage.Tag legacyDockerImage = "") then upgradedDockerBuilderConfig
    else v0.DockerBuilderConfig.set_TagTemplates
           (Some [DockerImage.Tag legacyDockerImage]) upgradedDockerBuilderConfig in
  let upgradedDockerBuilderConfig :=
    if decide (DockerImage.ContextDir legacyDockerImage = "") then upgradedDockerBuilderConfig
    else v0.DockerBuilderConfig.set_ContextDir
           (stringPtr (DockerImage.ContextDir legacyDockerImage)) upgradedDockerBuilderConfig in
  '(inputDists, dependencies) ←
    forRange (upgradeDockerDep k) (DockerImage.Deps legacyDockerImage)
      (v0.DockerBuilderConfig.InputDists upgradedDockerBuilderConfig, dependencies);
  let upgradedDockerBuilderConfig :=
    v0.DockerBuilderConfig.set_InputDists inputDists upgradedDockerBuilderConfig in
  upgradedDockerBuilderConfig ←
    upgradeDockerImageInfo k (DockerImage.Info legacyDockerImage) upgradedDockerBuilderConfig;
  let dockerID := "docker-image-" +:+ pretty i in
  Ok (<[dockerID := upgradedDockerBuilderConfig]> upgradedDockerBuildersConfig, dependencies).

(** The docker section of the loop body: the values of [product.Docker]
    and [product.Dependencies] after it. *)
Definition upgradeDocker (k : string) (legacyDockerImages : list DockerImage.t)
    (dependencies : option (list string))
    : Result (option v0.DockerConfig.t * option (list string)) :=
  if bool_decide (0 < length legacyDockerImages) then
    '(upgradedDockerBuildersConfig, dependencies) ←
      forRangeIndexed (upgradeDockerImage k) 0 legacyDockerImages (∅, dependencies);
    Ok (Some {| v0.DockerConfig.DockerBuildersConfig := Some upgradedDockerBuildersConfig |},
        dependencies)
  else Ok (None, dependencies).

(** The body of the loop over the sorted product keys: the upgraded
    product stored under [k]. *)
Definition upgradeProduct (productDefaults : v0.ProductConfig.t)
    (k : string) (legacyProduct : Product.t) : Result v0.ProductConfig.t :=
  build ← upgradeBuild k (Product.Build legacyProduct);
  let run := upgradeRun (Product.Run legacyProduct) in
  legacyDists ← defaultDist (Product.Dist legacyProduct) build;
  '(dist, dependencies, publish) ← upgradeDist k legacyDists;
  '(docker, dependencies) ←
    upgradeDocker k (Product.DockerImages legacyProduct) dependencies;
  let publish :=
    match v0.ProductConfig.Publish productDefaults, publish with
    | Some _, None => Some v0.PublishConfig.empty
    | _, _ => publish
    end in
  Ok {|
    v0.ProductConfig.Build := build;
    v0.ProductConfig.Run := run;
    v0.ProductConfig.Dist := dist;
    v0.ProductConfig.Publish := publish;
    v0.ProductConfig.Docker := docker;
    v0.ProductConfig.Dependencies := dependencies;
  |}.

(** The project-wide defaults of the upgraded configuration. *)
Definition upgradeProductDefaults (legacyCfg : Project.t) : v0.ProductConfig.t := {|
  v0.ProductConfig.Build :=
    if decide (Project.BuildOutputDir legacyCfg = "") then None
    else Some {|
      v0.BuildConfig.MainPkg := None;
      v0.BuildConfig.OutputDir := stringPtr (Project.BuildOutputDir legacyCfg);
      v0.BuildConfig.BuildArgsScript := None;
      v0.BuildConfig.VersionVar := None;
      v0.BuildConfig.Environment := None;
      v0.BuildConfig.OSArchs := None;
    |};
  v0.ProductConfig.Run := None;
  v0.ProductConfig.Dist :=
    if decide (Project.DistOutputDir legacyCfg = "") then None
    else Some {|
      v0.DistConfig.OutputDir := stringPtr (Project.DistOutputDir legacyCfg);
      v0.DistConfig.Disters := None;
    |};
  v0.ProductConfig.Publish :=
    if decide (Project.GroupID legacyCfg = "") then None
    else Some {|
      v0.PublishConfig.GroupID := stringPtr (Project.GroupID legacyCfg);
      v0.PublishConfig.PublishInfo := None;
    |};
  v0.ProductConfig.Docker := None;
  v0.ProductConfig.Dependencies := None;
|}.

(** The product keys, sorted as [sort.Strings] sorts them. *)
Definition sortedProductsKeys (legacyCfg : Project.t) : list string :=
  merge_sort String.le (map_to_list (Project.Products legacyCfg)).*1.

(** The body of the loop over the sorted keys, on the [products] map. *)
Definition upgradeProductAt (legacyCfg : Project.t) (productDefaults : v0.ProductConfig.t)
    (products : option (gmap string v0.ProductConfig.t)) (k : string)
    : Result (option (gmap string v0.ProductConfig.t)) :=
  let legacyProduct := default Product_zero (Project.Products legacyCfg !! k) in
  product ← upgradeProduct productDefaults k legacyProduct;
  match products with
  | None => Panic AssignmentToNilMap
  | Some products => Ok (Some (<[k := product]> products))
  end.

(** [upgradeLegacyConfig] returns a pointer to the upgraded configuration
    ([Some]), or an error. *)
Definition upgradeLegacyConfig (legacyCfg : Project.t) : Result (option v0.ProjectConfig.t) :=
  let productDefaults := upgradeProductDefaults legacyCfg in
  let keys := sortedProductsKeys legacyCfg in
  let products : option (gmap string v0.ProductConfig.t) :=
    if bool_decide (0 < length keys) then Some ∅ else None in
  products ← forRange (upgradeProductAt legacyCfg productDefaults) keys products;
  Ok (Some {|
    v0.ProjectConfig.Products := products;
    v0.ProjectConfig.ProductDefaults := productDefaults;
    v0.ProjectConfig.ScriptIncludes := translateEnvVars (Project.DistScriptInclude legacyCfg);
    v0.ProjectConfig.Exclude := Project.Exclude legacyCfg;
  |}).

(** [UpgradeConfig] returns the bytes of the upgraded configuration, nil
    bytes ([None]) when [upgradeLegacyConfig] returned a nil pointer, or an
    error. *)
Definition UpgradeConfig (cfgBytes : string) : Result (option string) :=
  legacyCfg ← wrapf (yaml_UnmarshalStrict_Project O cfgBytes)
                "failed to unmarshal dist-plugin legacy configuration" [];
  upgradedCfg ←
    match upgradeLegacyConfig legacyCfg with
    | Ok upgradedCfg => Ok upgradedCfg
    | Err err => Err (errors_WithStack err)
    | Panic p => Panic p
    end;
  match upgradedCfg with
  | None => Ok None
  | Some upgradedCfg =>
      outputBytes ← wrapf (yaml_Marshal_ProjectConfig O upgradedCfg)
                      "failed to marshal dist-plugin v0 configuration" [];
      Ok (Some outputBytes)
  end.

End upgrade.

(** ** Stand-ins for evaluating the upgrade on concrete configurations *)

(** A YAML library that marshals every value to one fixed document and
    decodes every document to one fixed mapping, and the type names the
    dister and docker-builder packages use in their configuration files. *)
Definition standInOutside : Outside := {|
  yaml_Marshal_SLSDist := λ _, Ok "legacy-config: true";
  yaml_Marshal_OSArchBinDist := λ _, Ok "legacy-config: true";
  yaml_Marshal_ManualDist := λ _, Ok "legacy-config: true";
  yaml_Marshal_RPMDist := λ _, Ok "legacy-config: true";
  yaml_Marshal_Almanac := λ _, Ok "legacy-config: true";
  yaml_Marshal_SLSDockerImageInfo := λ _, Ok "legacy-config: true";
  yaml_Marshal_ProjectConfig := λ _, Ok "{}";
  yaml_UnmarshalStrict_MapSlice := λ _, Ok [];
  yaml_UnmarshalStrict_Project := λ _, Ok Project_zero;
  bin_TypeName := "bin";
  manual_TypeName := "manual";
  osarchbin_TypeName := "os-arch-bin";
  defaultdockerbuilder_TypeName := "default";
|}.

(** Factories whose every type has an upgrader that returns its input. *)
Definition identityUpgrader : ConfigUpgrader :=
  {| ConfigUpgrader_UpgradeConfig := λ cfgBytes, Ok cfgBytes |}.
Definition standInDisterFactory : DisterFactory :=
  {| DisterFactory_ConfigUpgrader := λ _, Ok identityUpgrader |}.
Definition standInDockerBuilderFactory : DockerBuilderFactory :=
  {| DockerBuilderFactory_ConfigUpgrader := λ _, Ok identityUpgrader |}.
Definition standInPublisherFactory : PublisherFactory :=
  {| PublisherFactory_ConfigUpgrader := λ _, Ok identityUpgrader |}.

Definition standInUpgradeProduct : v0.ProductConfig.t → string → Product.t → Result v0.ProductConfig.t :=
  upgradeProduct standInOutside standInDisterFactory standInDockerBuilderFactory
    standInPublisherFactory.

Definition standInUpgradeLegacyConfig : Project.t → Result (option v0.ProjectConfig.t) :=
  upgradeLegacyConfig standInOutside standInDisterFactory standInDockerBuilderFactory
    standInPublisherFactory.


(** ** Concrete configurations *)

Definition standInUpgradeConfig : string → Result (option string) :=
  UpgradeConfig standInOutside standInDisterFactory standInDockerBuilderFactory
    standInPublisherFactory.

(** A project with the one product [legacyProduct], named [k]. *)
Definition projectOf (k : string) (legacyProduct : Product.t) : Project.t :=
  Project.mk false {[ k := legacyProduct ]} "" "" "" "" (matcher.mk [] []).

Definition linuxAmd64 : osarch.OSArch := osarch.mk "linux" "amd64".

(** A docker image with the given dependencies and nothing else. *)
Definition imageWithDeps (deps : list DockerDep.t) : DockerImage.t :=
  DockerImage.mk "" "" "" deps (DockerImageInfo.mk "" DockerImageInfo.Data_nil) "".

(** Product c of the specification: docker dependencies b of type docker,
    b of type binary and a of type docker. *)
Definition productBinaryDep : Product.t :=
  Product.mk Build_zero Run_zero []
    [imageWithDeps [DockerDep.mk "b" "docker" ""; DockerDep.mk "b" "binary" "";
                    DockerDep.mk "a" "docker" ""]]
    Publish_zero.

(** The same product with the second dependency of type bin. *)
Definition productBinDep : Product.t :=
  Product.mk Build_zero Run_zero []
    [imageWithDeps [DockerDep.mk "b" "docker" ""; DockerDep.mk "b" "bin" "";
                    DockerDep.mk "a" "docker" ""]]
    Publish_zero.

(** A bin dist entry with the given omit-init-sh field, input directory
    and script. *)
Definition binDistEntry (omitInitSh : option bool) (inputDir script : string) : Dist.t :=
  Dist.mk "" inputDir [] script
    (DistInfo.mk BinDistType (DistInfo.Info_BinDist (BinDist.mk false omitInitSh "")))
    Publish_zero.

(** A manual dist entry with extension tgz. *)
Definition manualDistEntry : Dist.t :=
  Dist.mk "" "" [] ""
    (DistInfo.mk ManualDistType (DistInfo.Info_ManualDist (ManualDist.mk false "tgz")))
    Publish_zero.

(** Build sections: skipped with a script, not skipped with a script, with
    and without OS/arch targets. *)
Definition buildSkippedWithScript : Build.t := Build.mk true "make" "" "" "" "" ∅ [].
Definition buildSkippedWithOSArchs : Build.t := Build.mk true "" "" "" "" "" ∅ [linuxAmd64].
Definition buildWithScript : Build.t := Build.mk false "make" "" "" "" "" ∅ [].
Definition buildWithScriptAndOSArchs : Build.t :=
  Build.mk false "make" "" "" "" "" ∅ [linuxAmd64].
Definition buildWithOSArchs : Build.t := Build.mk false "" "" "" "" "" ∅ [linuxAmd64].

Definition productOf (build : Build.t) (dists : RawDistConfigs) : Product.t :=
  Product.mk build Run_zero dists [] Publish_zero.

(** A manual dist entry with an output directory and a script. *)
Definition manualDistWithScript : Dist.t :=
  Dist.mk "out" "" [] "echo done"
    (DistInfo.mk ManualDistType (DistInfo.Info_ManualDist (ManualDist.mk false "tgz")))
    Publish_zero.

(** A bin dist entry that is published with an Almanac tag. *)
Definition binDistWithAlmanacTag : Dist.t :=
  Dist.mk "" "" [] ""
    (DistInfo.mk BinDistType (DistInfo.Info_BinDist (BinDist.mk false None "")))
    (Publish.mk "" (Almanac.mk false ∅ ["release"])).

(** A dister factory that has no upgrader for any type. *)
Definition noUpgraderDisterFactory : DisterFactory :=
  {| DisterFactory_ConfigUpgrader := λ _, Err (errors_New "no upgrader") |}.

(** ** Notions used to state the properties *)

(** The byte [c] occurs in [s]. *)
Fixpoint occurs (c : ascii) (s : string) : bool :=
  match s with
  | EmptyString => false
  | String d s' => bool_decide (c = d) || occurs c s'
  end.

(** [old] and [w] differ at a position both have: however [w] is
    continued, [old] is not a prefix of it. *)
Fixpoint mismatch (old w : string) : bool :=
  match old, w with
  | String a old', String b w' => if bool_decide (a = b) then mismatch old' w' else true
  | _, _ => false
  end.

(** No instance of [old] starts inside [w], however [w] is continued. *)
Fixpoint clean (old w : string) : bool :=
  match w with
  | EmptyString => true
  | String _ w' => mismatch old w && clean old w'
  end.

(** The plugin type name the [switch distType] gives a legacy dist type;
    none for a type it does not know. *)
Definition disterTypeName (O : Outside) (distType : DistInfoType) : option string :=
  if decide (distType = SLSDistType) then Some "sls"
  else if decide (distType = BinDistType) then Some (bin_TypeName O)
  else if decide (distType = OSArchBinDistType) then Some (osarchbin_TypeName O)
  else if decide (distType = ManualDistType) then Some (manual_TypeName O)
  else if decide (distType = RPMDistType) then Some "rpm"
  else None.

(** A list without its duplicates, in first-seen order: each element stays
    where it occurs first. *)
Fixpoint dedupFirstSeen (l : list string) : list string :=
  match l with
  | [] => []
  | x :: l' => x :: filter (λ y, y ≠ x) (dedupFirstSeen l')
  end.



(** The script that appending the fragments, in order, to a script that is
    not set gives: not set when there is no fragment. *)
Definition scriptOfFragments (fragments : list string) : option string :=
  match fragments with
  | [] => None
  | _ => Some (foldl appendToScript "" fragments)
  end.

(** The fragments of the script of an upgraded dist entry: the launcher
    fragment when [launcher] holds, then the input-dir fragment and the
    rewritten legacy script, each when its field is set. *)
Definition distScriptFragments (launcher : bool) (legacyDist : Dist.t) : list string :=
  (if launcher then [binDistInitShScript] else [])
  ++ (if decide (Dist.InputDir legacyDist = "") then []
      else [inputDirScriptContent (Dist.InputDir legacyDist)])
  ++ (if decide (Dist.Script legacyDist = "") then []
      else [translateEnvVars (Dist.Script legacyDist)]).

(** The legacy dist entry asks for the launcher script of the bin dist:
    its type is bin and its omit-init-sh field is present and false. *)
Definition launcherRequested (legacyDist : Dist.t) : bool :=
  match DistInfo.Info (Dist.DistType legacyDist) with
  | DistInfo.Info_BinDist binDist =>
      bool_decide (DistInfo.Type_ (Dist.DistType legacyDist) = BinDistType)
      && bool_decide (BinDist.OmitInitSh binDist = Some false)
  | _ => false
  end.


(** The [Info] of a dist info holds the struct of its type, when the type
    is one of the five the upgrade knows. *)
Definition infoMatchesType (d : DistInfo.t) : bool :=
  let type := DistInfo.Type_ d in
  if decide (type = SLSDistType) then
    match DistInfo.Info d with DistInfo.Info_SLSDist _ => true | _ => false end
  else if decide (type = BinDistType) then
    match DistInfo.Info d with DistInfo.Info_BinDist _ => true | _ => false end
  else if decide (type = OSArchBinDistType) then
    match DistInfo.Info d with DistInfo.Info_OSArchBinDist _ => true | _ => false end
  else if decide (type = ManualDistType) then
    match DistInfo.Info d with DistInfo.Info_ManualDist _ => true | _ => false end
  else if decide (type = RPMDistType) then
    match DistInfo.Info d with DistInfo.Info_RPMDist _ => true | _ => false end
  else true.

(** The [Data] of a docker image info of type sls holds the sls struct. *)
Definition dataMatchesType (d : DockerImageInfo.t) : bool :=
  if decide (DockerImageInfo.Type_ d = "sls") then
    match DockerImageInfo.Data d with
    | DockerImageInfo.Data_SLSDockerImageInfo _ => true
    | _ => false
    end
  else true.

(** The list [o], or the empty list when it is not set, with the elements
    of [l] added in order, each unless it is there already; [o] itself when
    [l] is empty. *)
Definition addAllIfNotPresent (o : option (list string)) (l : list string)
    : option (list string) :=
  match l with
  | [] => o
  | _ => Some (foldl addDepIfNotPresent (default [] o) l)
  end.

(** The input-dist identifiers of the dependencies of a docker image:
    product.type for each dependency of type bin or sls, in order. *)
Definition dockerInputDistIDs (deps : list DockerDep.t) : list string :=
  (λ dep, DockerDep.Product dep +:+ "." +:+ DockerDep.Type_ dep) <$>
    filter (λ dep, DockerDep.Type_ dep = "bin" ∨ DockerDep.Type_ dep = "sls") deps.

(** The identifier of the builder of the image at index [i]. *)
Definition dockerImageID (i : nat) : string := "docker-image-" +:+ pretty i.

(** The dependency types the upgrade of a docker image knows. *)
Definition knownDockerDepType (dep : DockerDep.t) : Prop :=
  DockerDep.Type_ dep ∈ ["docker"; "bin"; "sls"].

(** The docker builder configuration [cfg] is the one the upgrade writes
    for the image: the type sls or that of the default builder, the tag as
    the one tag template, the context directory, and the input dists of the
    dependencies. *)
Definition builderOfImage (O : Outside) (image : DockerImage.t)
    (cfg : v0.DockerBuilderConfig.t) : Prop :=
  v0.DockerBuilderConfig.Type_ cfg =
    Some (if decide (DockerImageInfo.Type_ (DockerImage.Info image) = "sls") then "sls"
          else defaultdockerbuilder_TypeName O) ∧
  v0.DockerBuilderConfig.TagTemplates cfg =
    (if decide (DockerImage.Tag image = "") then None else Some [DockerImage.Tag image]) ∧
  v0.DockerBuilderConfig.ContextDir cfg =
    (if decide (DockerImage.ContextDir image = "") then None
     else Some (DockerImage.ContextDir image)) ∧
  v0.DockerBuilderConfig.InputDists cfg =
    (if decide (dockerInputDistIDs (DockerImage.Deps image) = []) then None
     else Some (dedupFirstSeen (dockerInputDistIDs (DockerImage.Deps image)))).

(** A call returns: with a value or an error, it does not panic. *)
Definition returns {A : Type} (r : Result A) : Prop := ∀ p, r ≠ Panic p.

(** The YAML library returns from every call. *)
Definition OutsideReturns (O : Outside) : Prop :=
  (∀ d, returns (yaml_Marshal_SLSDist O d)) ∧
  (∀ d, returns (yaml_Marshal_OSArchBinDist O d)) ∧
  (∀ d, returns (yaml_Marshal_ManualDist O d)) ∧
  (∀ d, returns (yaml_Marshal_RPMDist O d)) ∧
  (∀ a, returns (yaml_Marshal_Almanac O a)) ∧
  (∀ d, returns (yaml_Marshal_SLSDockerImageInfo O d)) ∧
  (∀ cfgBytes, returns (yaml_UnmarshalStrict_MapSlice O cfgBytes)).

(** A factory returns from every lookup of an upgrader, and the upgraders
    it gives return from every call. *)
Definition factoryReturns (configUpgrader : string → Result ConfigUpgrader) : Prop :=
  ∀ typeName,
    returns (configUpgrader typeName) ∧
    ∀ upgrader cfgBytes,
      configUpgrader typeName = Ok upgrader →
      returns (ConfigUpgrader_UpgradeConfig upgrader cfgBytes).

(** A legacy product as the decoders leave it: the payload of every dist
    info and docker image info is of the struct of its type. *)
Definition payloadsMatchTypes (legacyProduct : Product.t) : Prop :=
  Forall (λ legacyDist, infoMatchesType (Dist.DistType legacyDist) = true)
    (Product.Dist legacyProduct) ∧
  Forall (λ image, dataMatchesType (DockerImage.Info image) = true)
    (Product.DockerImages legacyProduct).



(** What the upgrader of a plugin, as the factory's [lookup] gave it, makes
    of marshalled legacy bytes: the mapping decoded from the bytes the
    upgrader returns. *)
Definition upgradedByPlugin (O : Outside) (lookup : Result ConfigUpgrader)
    (legacyBytes : string) (cfgMapSlice : MapSlice) : Prop :=
  ∃ upgrader upgradedBytes,
    lookup = Ok upgrader ∧
    ConfigUpgrader_UpgradeConfig upgrader legacyBytes = Ok upgradedBytes ∧
    yaml_UnmarshalStrict_MapSlice O upgradedBytes = Ok cfgMapSlice.

(** The payload of a dist info, marshalled with its legacy flag set; the
    payload of a bin dist is not marshalled. *)
Definition marshalLegacyDist (O : Outside) (info : DistInfo.InfoValue) : Result string :=
  match info with
  | DistInfo.Info_SLSDist d => yaml_Marshal_SLSDist O (SLSDist.set_Legacy true d)
  | DistInfo.Info_OSArchBinDist d =>
      yaml_Marshal_OSArchBinDist O (OSArchBinDist.set_Legacy true d)
  | DistInfo.Info_ManualDist d => yaml_Marshal_ManualDist O (ManualDist.set_Legacy true d)
  | DistInfo.Info_RPMDist d => yaml_Marshal_RPMDist O (RPMDist.set_Legacy true d)
  | _ => Ok ""
  end.


(** * Properties *)

(** ** Strings *)

Section string_facts.
Implicit Types s t u old new : string.

Lemma append_nil_r s : s +:+ "" = s.
Proof. induction s as [|c s IH]; simpl; [done | by rewrite IH]. Qed.

Lemma append_assoc s t u : (s +:+ t) +:+ u = s +:+ (t +:+ u).
Proof. induction s as [|c s IH]; simpl; [done | by rewrite IH]. Qed.

Lemma length_append s t : String.length (s +:+ t) = String.length s + String.length t.
Proof. induction s as [|c s IH]; simpl; [done | by rewrite IH]. Qed.

Lemma prefix_String c old d s :
  String.prefix (String c old) (String d s) = bool_decide (c = d) && String.prefix old s.
Proof. simpl. destruct (ascii_dec c d); by case_bool_decide. Qed.

Lemma prefix_append old s : String.prefix old (old +:+ s) = true.
Proof.
  induction old as [|c old IH]; [by destruct s|].
  simpl. by destruct (ascii_dec c c).
Qed.

Lemma prefix_append_r old s t :
  String.prefix old s = true → String.prefix old (s +:+ t) = true.
Proof.
  revert s. induction old as [|c old IH]; intros [|d s]; simpl; try done.
  - by destruct t.
  - destruct (ascii_dec c d); [apply IH | done].
Qed.

(** [strings.HasSuffix] holds exactly of the strings that end in the
    suffix. *)
Lemma HasSuffix_true s suffix :
  strings.HasSuffix s suffix = true ↔ ∃ t, s = t +:+ suffix.
Proof.
  induction s as [|c s IH]; simpl.
  - rewrite orb_false_r, bool_decide_eq_true. split.
    + intros <-. by exists "".
    + intros [[|d t] Ht]; simpl in Ht; [done | discriminate].
  - rewrite orb_true_iff, bool_decide_eq_true, IH. split.
    + intros [<- | [t ->]]; [by exists "" | by exists (String c t)].
    + intros [[|d t] Ht]; simpl in Ht; [by left | right].
      injection Ht as -> ->. by exists t.
Qed.

Lemma HasSuffix_append s suffix : strings.HasSuffix (s +:+ suffix) suffix = true.
Proof. apply HasSuffix_true. by exists s. Qed.
End string_facts.

(** ** The script invariant of [appendToScript] *)

(** What [appendToScript] returns: the script, or the interpreter line when
    the script is empty, followed by the appended text and by a newline
    unless that already ends in one. *)
Lemma appendToScript_unfold script append :
  ∃ tail, (tail = "" ∨ tail = nl) ∧
    appendToScript script append =
      ((if decide (script = "") then "#!/bin/bash" +:+ nl else script) +:+ append) +:+ tail.
Proof.
  unfold appendToScript.
  destruct (decide (script = "")) as [-> | Hne]; simpl String.append;
    match goal with |- context [strings.HasSuffix ?x nl] =>
      destruct (strings.HasSuffix x nl) end; simpl negb; cbv iota;
    first [ by exists nl; split; [right|] | exists ""; split; [by left|];
            by rewrite append_nil_r ].
Qed.

Lemma appendToScript_ends_in_newline script append :
  strings.HasSuffix (appendToScript script append) nl = true.
Proof.
  unfold appendToScript.
  match goal with |- context [negb (strings.HasSuffix ?x nl)] =>
    destruct (strings.HasSuffix x nl) eqn:Hsuffix end; simpl negb; cbv iota.
  - done.
  - apply HasSuffix_append.
Qed.

Lemma appendToScript_nonempty script append : appendToScript script append ≠ "".
Proof.
  intros Hempty. pose proof (appendToScript_ends_in_newline script append) as H.
  by rewrite Hempty in H.
Qed.

Lemma appendToScript_prefix script append :
  strings.HasPrefix (appendToScript script append)
    ((if decide (script = "") then "#!/bin/bash" +:+ nl else script) +:+ append) = true.
Proof.
  destruct (appendToScript_unfold script append) as (tail & _ & ->).
  apply prefix_append.
Qed.

(** Later appends keep what the script starts with. *)
Lemma foldl_appendToScript_prefix fragments script p :
  script ≠ "" → strings.HasPrefix script p = true →
  strings.HasPrefix (foldl appendToScript script fragments) p = true.
Proof.
  revert script. induction fragments as [|f fragments IH]; intros script Hne Hp; [done|].
  simpl. apply IH; [apply appendToScript_nonempty|].
  destruct (appendToScript_unfold script f) as (tail & _ & ->).
  rewrite decide_False by done. unfold strings.HasPrefix in *.
  by do 2 apply prefix_append_r.
Qed.

Lemma foldl_appendToScript_ends_in_newline fragments script f :
  strings.HasSuffix (foldl appendToScript script (f :: fragments)) nl = true.
Proof.
  revert script f. induction fragments as [|g fragments IH]; intros script f.
  - apply appendToScript_ends_in_newline.
  - apply (IH (appendToScript script f) g).
Qed.

(** C9: the first fragment appended to an empty script follows the line
    [#!/bin/bash], an append to a script that is not empty adds no such
    line, the script ends in a newline after every append, and so after
    every sequence of appends that starts from the empty script: it starts
    with the interpreter line and the first fragment and ends in a
    newline. *)
Theorem appendToScript_script_invariant :
  (∀ append,
     strings.HasPrefix (appendToScript "" append) ("#!/bin/bash" +:+ nl +:+ append) = true) ∧
  (∀ c script append,
     strings.HasPrefix (appendToScript (String c script) append)
       (String c script +:+ append) = true) ∧
  (∀ script append, strings.HasSuffix (appendToScript script append) nl = true) ∧
  (∀ first fragments,
     strings.HasPrefix (foldl appendToScript "" (first :: fragments))
       ("#!/bin/bash" +:+ nl +:+ first) = true ∧
     strings.HasSuffix (foldl appendToScript "" (first :: fragments)) nl = true).
Proof.
  split_and!.
  - intros append. apply (appendToScript_prefix "" append).
  - intros c script append. apply (appendToScript_prefix (String c script) append).
  - apply appendToScript_ends_in_newline.
  - intros first fragments. split.
    + simpl. apply foldl_appendToScript_prefix; [apply appendToScript_nonempty|].
      apply (appendToScript_prefix "" first).
    + apply foldl_appendToScript_ends_in_newline.
Qed.

(** ** [strings.Replace] on a pattern whose first byte occurs in it once *)

Section replace_facts.
Implicit Types s t u a w old new : string.



Lemma Replace_from_skip x u old new :
  strings.Replace_from (String.length x) (x +:+ u) old new = strings.Replace_from 0 u old new.
Proof. induction x as [|d x IH]; simpl; [by destruct u | done]. Qed.

(** An instance of the pattern at the start of the text is replaced. *)
Lemma Replace_instance c t u new :
  strings.Replace (String c t +:+ u) (String c t) new =
  new +:+ strings.Replace u (String c t) new.
Proof.
  unfold strings.Replace. change (String c t +:+ u) with (String c (t +:+ u)).
  cbn [strings.Replace_from].
  assert (strings.HasPrefix (String c (t +:+ u)) (String c t) = true) as ->
    by apply (prefix_append (String c t) u).
  cbn [String.length].
  replace (S (String.length t) - 1) with (String.length t) by lia.
  by rewrite Replace_from_skip.
Qed.

Lemma Replace_from_O x s old new :
  strings.Replace_from 0 (String x s) old new =
  if strings.HasPrefix (String x s) old
  then new +:+ strings.Replace_from (String.length old - 1) s old new
  else String x (strings.Replace_from 0 s old new).
Proof. done. Qed.




Lemma mismatch_prefix old w u : mismatch old w = true → String.prefix old (w +:+ u) = false.
Proof.
  revert w. induction old as [|a old IH]; intros [|b w]; simpl; try done.
  case_bool_decide as Hab.
  - destruct (ascii_dec a b); [apply IH | done].
  - by destruct (ascii_dec a b).
Qed.


(** Text that does not contain the pattern is kept. *)
Lemma Replace_absent s old new : strings.Contains s old = false → strings.Replace s old new = s.
Proof.
  unfold strings.Replace. induction s as [|b s IH]; [done|].
  change (strings.Contains (String b s) old)
    with (strings.HasPrefix (String b s) old || strings.Contains s old).
  intros [Hp Hs]%orb_false_iff.
  by rewrite Replace_from_O, Hp, IH.
Qed.
End replace_facts.

(** ** The environment-variable rewriting *)

Section translateEnvVars_facts.
Implicit Types s a b : string.

Local Abbreviation rename s := (translateVar s "DIST_DIR" "DIST_WORK_DIR").







End translateEnvVars_facts.

(** ** The single-or-list decoder *)

(** C6: a node that decodes as a list with an entry gives that list,
    whatever it would decode to as a single entry; a node that decodes as
    the empty list gives the at-least-one-dist error; a node that does not
    decode as a list but decodes as a single entry gives the one-element
    list of it; and a node that decodes as neither gives the error of the
    single-entry decoding. *)
Theorem RawDistConfigs_UnmarshalYAML_single_or_list :
  (∀ d ds single,
     RawDistConfigs_UnmarshalYAML
       {| unmarshal_Dists := Ok (d :: ds); unmarshal_Dist := single |} = Ok (d :: ds)) ∧
  (∀ single,
     RawDistConfigs_UnmarshalYAML
       {| unmarshal_Dists := Ok []; unmarshal_Dist := single |} = Err dist_at_least_one) ∧
  (∀ listErr single,
     RawDistConfigs_UnmarshalYAML
       {| unmarshal_Dists := Err listErr; unmarshal_Dist := Ok single |} = Ok [single]) ∧
  (∀ listErr singleErr,
     RawDistConfigs_UnmarshalYAML
       {| unmarshal_Dists := Err listErr; unmarshal_Dist := Err singleErr |} = Err singleErr).
Proof. by split_and!. Qed.

(** ** Results of the upgrade steps *)

Section result_facts.
Context {A B : Type}.
Implicit Types (m : Result A) (f : A → Result B).

Lemma bind_Ok m f b : m ≫= f = Ok b ↔ ∃ a, m = Ok a ∧ f a = Ok b.
Proof.
  destruct m as [a|e|p]; simpl.
  - split; [by exists a | by intros (? & [= <-] & ?)].
  - split; [done | by intros (? & ? & ?)].
  - split; [done | by intros (? & ? & ?)].
Qed.

Lemma bind_Ok_l a f : Ok a ≫= f = f a.
Proof. done. Qed.

Lemma wrapf_Ok m format args a : wrapf m format args = Ok a ↔ m = Ok a.
Proof. destruct m; simpl; split; congruence. Qed.
End result_facts.

(** A loop does not complete when its body fails at one of the elements,
    whatever the state. *)
Lemma forRange_not_Ok {A B} (body : B → A → Result B) l x :
  x ∈ l → (∀ b b', body b x ≠ Ok b') → ∀ b b', forRange body l b ≠ Ok b'.
Proof.
  intros Hx Hbody. induction l as [|y l IH]; [by apply elem_of_nil in Hx|].
  intros b b'. simpl. rewrite bind_Ok. intros (b1 & Hy & Hrest).
  apply elem_of_cons in Hx as [-> | Hx]; [by eapply Hbody | by eapply IH].
Qed.

(** ** The build section and the default dist entry *)

Section upgrade_facts.
Context (O : Outside).
Context (disterFactory : DisterFactory).
Context (dockerBuilderFactory : DockerBuilderFactory).
Context (publisherFactory : PublisherFactory).

Local Abbreviation upgradeProduct' :=
  (upgradeProduct O disterFactory dockerBuilderFactory publisherFactory).
Local Abbreviation upgradeLegacyConfig' :=
  (upgradeLegacyConfig O disterFactory dockerBuilderFactory publisherFactory).
Local Abbreviation UpgradeConfig' :=
  (UpgradeConfig O disterFactory dockerBuilderFactory publisherFactory).

Lemma upgradeBuild_skip k legacyBuild :
  Build.Skip legacyBuild = true → upgradeBuild k legacyBuild = Ok None.
Proof. unfold upgradeBuild. by intros ->. Qed.

Lemma upgradeBuild_script k legacyBuild :
  Build.Skip legacyBuild = false → Build.Script legacyBuild ≠ "" →
  upgradeBuild k legacyBuild = Err (errors_Errorf build_script_unsupported [k]).
Proof. unfold upgradeBuild. intros -> ?. simpl. by rewrite decide_False. Qed.

(** A build section that is upgraded is upgraded to a build configuration
    with the same OS/arch list, set when the list has an entry. *)
Lemma upgradeBuild_OSArchs k legacyBuild :
  Build.Skip legacyBuild = false → Build.Script legacyBuild = "" →
  ∃ build, upgradeBuild k legacyBuild = Ok (Some build) ∧
    v0.BuildConfig.OSArchs build =
      if bool_decide (0 < length (Build.OSArchs legacyBuild))
      then Some (Build.OSArchs legacyBuild) else None.
Proof.
  unfold upgradeBuild. intros -> ->. simpl. eauto.
Qed.

Lemma defaultDist_present legacyDists productBuild :
  legacyDists ≠ [] → defaultDist legacyDists productBuild = Ok legacyDists.
Proof. unfold defaultDist. by destruct legacyDists. Qed.

(** Where the build section is skipped and there is no dist entry, the
    loop body reads a field of the build configuration it has not set. *)
Lemma upgradeProduct_skip_no_dist productDefaults k legacyProduct :
  Build.Skip (Product.Build legacyProduct) = true → Product.Dist legacyProduct = [] →
  upgradeProduct' productDefaults k legacyProduct = Panic NilPointerDereference.
Proof. unfold upgradeProduct. intros Hskip ->. by rewrite upgradeBuild_skip. Qed.

Lemma upgradeProduct_build_script productDefaults k legacyProduct :
  Build.Skip (Product.Build legacyProduct) = false →
  Build.Script (Product.Build legacyProduct) ≠ "" →
  upgradeProduct' productDefaults k legacyProduct =
    Err (errors_Errorf build_script_unsupported [k]).
Proof. unfold upgradeProduct. intros Hskip Hscript. by rewrite upgradeBuild_script. Qed.

(** The keys the loop runs over are the keys of the products map. *)
Lemma elem_of_sortedProductsKeys legacyCfg k :
  k ∈ sortedProductsKeys legacyCfg ↔ is_Some (Project.Products legacyCfg !! k).
Proof.
  unfold sortedProductsKeys. rewrite merge_sort_Permutation, list_elem_of_fmap. split.
  - intros ([k' p] & -> & Hkp%elem_of_map_to_list). by exists p.
  - intros [p Hp]. exists (k, p). by rewrite elem_of_map_to_list.
Qed.

(** The upgrade does not succeed when the loop body fails for one of the
    products. *)
Lemma upgradeLegacyConfig_not_Ok legacyCfg k legacyProduct :
  Project.Products legacyCfg !! k = Some legacyProduct →
  (∀ up, upgradeProduct' (upgradeProductDefaults legacyCfg) k legacyProduct ≠ Ok up) →
  ∀ upgradedCfg, upgradeLegacyConfig' legacyCfg ≠ Ok upgradedCfg.
Proof.
  intros Hk Hfail upgradedCfg. unfold upgradeLegacyConfig. rewrite bind_Ok.
  intros (products & Hloop & _). revert Hloop.
  apply forRange_not_Ok with (x := k).
  - apply elem_of_sortedProductsKeys. by rewrite Hk.
  - intros b b'. unfold upgradeProductAt. rewrite Hk. simpl. rewrite bind_Ok.
    intros (up & Hup & _). by eapply Hfail.
Qed.

(** ** The dist section *)

Lemma appendToScriptPtr_fragments fragments append :
  appendToScriptPtr (scriptOfFragments fragments) append =
  scriptOfFragments (fragments ++ [append]).
Proof.
  destruct fragments as [|f fragments]; [done|].
  unfold appendToScriptPtr, scriptOfFragments, stringPtr. simpl default.
  change ((f :: fragments) ++ [append]) with (f :: (fragments ++ [append])).
  cbv iota. by rewrite (foldl_app _ (f :: fragments) [append]).
Qed.

(** What the [switch distType] leaves in the dister configuration when it
    does not fail. *)
Lemma upgradeDistType_Ok k legacyDist cfg cfgBytes :
  upgradeDistType O k legacyDist = Ok (cfg, cfgBytes) →
  v0.DisterConfig.Type_ cfg = disterTypeName O (DistInfo.Type_ (Dist.DistType legacyDist)) ∧
  is_Some (v0.DisterConfig.Type_ cfg) ∧
  v0.DisterConfig.Script cfg =
    scriptOfFragments (if launcherRequested legacyDist then [binDistInitShScript] else []).
Proof.
  unfold upgradeDistType, disterTypeName, launcherRequested.
  destruct legacyDist as [? ? ? ? [distType info] ?]; simpl.
  repeat case_decide; try done; subst distType;
    destruct info as [| | binDist | | | |]; try done;
    try (rewrite bind_Ok; intros (? & _ & [= <- <-]); by simpl; eauto).
  destruct binDist as [? [[|]|] ?]; simpl;
    try (intros [= <- <-]; by simpl; eauto).
  case_decide; [|done]. intros [= <- <-]. simpl. eauto.
Qed.

Lemma upgradeDisterConfig_Ok k distType cfg cfgBytes cfg' :
  upgradeDisterConfig O disterFactory k distType cfg cfgBytes = Ok cfg' →
  v0.DisterConfig.Type_ cfg' = v0.DisterConfig.Type_ cfg ∧
  v0.DisterConfig.Script cfg' = v0.DisterConfig.Script cfg.
Proof.
  unfold upgradeDisterConfig. case_bool_decide as Hlen; [|by intros [= <-]].
  rewrite bind_Ok. intros (? & _ & Hrest). rewrite bind_Ok in Hrest.
  destruct Hrest as (? & _ & Hrest). rewrite bind_Ok in Hrest.
  by destruct Hrest as (? & _ & [= <-]).
Qed.

Lemma upgradeDistScript_Type legacyDist cfg :
  v0.DisterConfig.Type_ (upgradeDistScript legacyDist cfg) = v0.DisterConfig.Type_ cfg.
Proof. unfold upgradeDistScript. by repeat case_decide. Qed.

Lemma upgradeDistScript_Script legacyDist cfg fragments :
  v0.DisterConfig.Script cfg = scriptOfFragments fragments →
  v0.DisterConfig.Script (upgradeDistScript legacyDist cfg) =
    scriptOfFragments
      (fragments
       ++ (if decide (Dist.InputDir legacyDist = "") then []
           else [inputDirScriptContent (Dist.InputDir legacyDist)])
       ++ (if decide (Dist.Script legacyDist = "") then []
           else [translateEnvVars (Dist.Script legacyDist)])).
Proof.
  intros Hcfg. unfold upgradeDistScript.
  repeat case_decide; simpl; rewrite ?Hcfg, ?appendToScriptPtr_fragments, ?app_nil_r;
    by rewrite <-?(assoc_L (++)).
Qed.

Lemma upgradeDist_multiple k legacyDists :
  1 < length legacyDists →
  upgradeDist O disterFactory publisherFactory k legacyDists =
    Err (errors_Errorf multiple_dists_unsupported [k]).
Proof.
  intros Hlen. unfold upgradeDist. destruct legacyDists; [simpl in Hlen; lia|].
  by rewrite bool_decide_eq_true_2.
Qed.

(** The dist section of a product with one dist entry, when it does not
    fail: one dister, keyed by its type name, with the script of the
    fragments. *)
Lemma upgradeDist_single_Ok k legacyDist dist dependencies publish :
  upgradeDist O disterFactory publisherFactory k [legacyDist] = Ok (dist, dependencies, publish) →
  ∃ typeName cfg,
    disterTypeName O (DistInfo.Type_ (Dist.DistType legacyDist)) = Some typeName ∧
    dist = Some {|
      v0.DistConfig.OutputDir := ptrUnlessEmpty (Dist.OutputDir legacyDist);
      v0.DistConfig.Disters := Some {[ typeName := cfg ]};
    |} ∧
    v0.DisterConfig.Type_ cfg = Some typeName ∧
    v0.DisterConfig.Script cfg =
      scriptOfFragments (distScriptFragments (launcherRequested legacyDist) legacyDist) ∧
    dependencies = upgradeInputProducts legacyDist.
Proof.
  unfold upgradeDist. rewrite bool_decide_eq_false_2 by (simpl; lia).
  rewrite bind_Ok. intros ([cfg0 cfgBytes] & Hswitch & H).
  apply upgradeDistType_Ok in Hswitch as (Htype & [typeName HtypeName] & Hscript).
  rewrite bind_Ok in H. destruct H as (cfg1 & Hcfg1 & H).
  apply upgradeDisterConfig_Ok in Hcfg1 as [Htype1 Hscript1].
  rewrite upgradeDistScript_Type, Htype1, HtypeName in H.
  rewrite bind_Ok in H. destruct H as (publishCfg & _ & [= <- <- <-]).
  exists typeName, (upgradeDistScript legacyDist cfg1). split_and!; try done.
  - by rewrite <-Htype.
  - by rewrite upgradeDistScript_Type, Htype1.
  - apply upgradeDistScript_Script. by rewrite Hscript1.
Qed.

(** The steps of the loop body, when it does not fail. *)
Lemma upgradeProduct_Ok productDefaults k legacyProduct up :
  upgradeProduct' productDefaults k legacyProduct = Ok up →
  ∃ build legacyDists dist dependencies0 publish docker,
    upgradeBuild k (Product.Build legacyProduct) = Ok build ∧
    defaultDist (Product.Dist legacyProduct) build = Ok legacyDists ∧
    upgradeDist O disterFactory publisherFactory k legacyDists =
      Ok (dist, dependencies0, publish) ∧
    upgradeDocker O dockerBuilderFactory k (Product.DockerImages legacyProduct) dependencies0 =
      Ok (docker, v0.ProductConfig.Dependencies up) ∧
    v0.ProductConfig.Build up = build ∧
    v0.ProductConfig.Dist up = dist ∧
    v0.ProductConfig.Docker up = docker.
Proof.
  unfold upgradeProduct. rewrite bind_Ok. intros (build & Hbuild & H).
  rewrite bind_Ok in H. destruct H as (legacyDists & Hdists & H).
  rewrite bind_Ok in H. destruct H as ([[dist dependencies0] publish] & Hdist & H).
  rewrite bind_Ok in H. destruct H as ([docker dependencies] & Hdocker & [= <-]).
  by exists build, legacyDists, dist, dependencies0, publish, docker.
Qed.

(** C3, amended: for every legacy product whose build section is not
    skipped and has a non-empty script field, the upgrade of that product
    fails with the build-scripts-are-no-longer-supported error, which names
    the product, and the upgrade of a configuration that holds the product
    does not succeed. *)
Theorem build_script_fails_unless_build_skipped productDefaults k legacyProduct :
  Build.Skip (Product.Build legacyProduct) = false →
  Build.Script (Product.Build legacyProduct) ≠ "" →
  upgradeProduct' productDefaults k legacyProduct =
    Err (errors_Errorf build_script_unsupported [k]) ∧
  k ∈ error_args (errors_Errorf build_script_unsupported [k]) ∧
  ∀ legacyCfg upgradedCfg,
    Project.Products legacyCfg !! k = Some legacyProduct →
    upgradeLegacyConfig' legacyCfg ≠ Ok upgradedCfg.
Proof.
  intros Hskip Hscript. split_and!.
  - by apply upgradeProduct_build_script.
  - simpl. apply list_elem_of_singleton. done.
  - intros legacyCfg upgradedCfg Hk. revert upgradedCfg.
    apply upgradeLegacyConfig_not_Ok with (k := k) (legacyProduct := legacyProduct); [done|].
    intros up. by rewrite upgradeProduct_build_script.
Qed.

(** C4: the upgrade of a product with more than one dist entry fails with
    an error that names the product, either the more-than-one-dist error
    or, when its build section has a script and is not skipped, the
    build-script error, and the upgrade of a configuration that holds the
    product does not succeed; the upgrade of a product with exactly one
    dist entry, when it succeeds, gives a dist configuration with exactly
    one dister, keyed by the plugin type name of the legacy dist type and of
    that type. *)
Theorem one_dist_per_product productDefaults k legacyProduct :
  (1 < length (Product.Dist legacyProduct) →
   (∃ e, upgradeProduct' productDefaults k legacyProduct = Err e ∧
         (e = errors_Errorf multiple_dists_unsupported [k] ∨
          e = errors_Errorf build_script_unsupported [k]) ∧
         k ∈ error_args e) ∧
   ∀ legacyCfg upgradedCfg,
     Project.Products legacyCfg !! k = Some legacyProduct →
     upgradeLegacyConfig' legacyCfg ≠ Ok upgradedCfg) ∧
  (∀ legacyDist up,
     Product.Dist legacyProduct = [legacyDist] →
     upgradeProduct' productDefaults k legacyProduct = Ok up →
     ∃ typeName dist cfg,
       disterTypeName O (DistInfo.Type_ (Dist.DistType legacyDist)) = Some typeName ∧
       v0.ProductConfig.Dist up = Some dist ∧
       v0.DistConfig.Disters dist = Some {[ typeName := cfg ]} ∧
       size ({[ typeName := cfg ]} : gmap string v0.DisterConfig.t) = 1 ∧
       v0.DisterConfig.Type_ cfg = Some typeName).
Proof.
  split.
  - intros Hlen.
    assert (∀ d, ∃ e, upgradeProduct' d k legacyProduct = Err e ∧
              (e = errors_Errorf multiple_dists_unsupported [k] ∨
               e = errors_Errorf build_script_unsupported [k]) ∧
              k ∈ error_args e) as Hfail.
    { intros d. unfold upgradeProduct.
      destruct (Build.Skip (Product.Build legacyProduct)) eqn:Hskip.
      - rewrite upgradeBuild_skip by done. simpl.
        rewrite defaultDist_present by (intros Hnil; rewrite Hnil in Hlen; simpl in Hlen; lia).
        simpl. rewrite upgradeDist_multiple by done. simpl.
        eexists. split_and!; [done | by left | by apply list_elem_of_singleton].
      - destruct (decide (Build.Script (Product.Build legacyProduct) = "")) as [Hscript|Hscript].
        + destruct (upgradeBuild_OSArchs k _ Hskip Hscript) as (build & -> & _). simpl.
          rewrite defaultDist_present
            by (intros Hnil; rewrite Hnil in Hlen; simpl in Hlen; lia).
          simpl. rewrite upgradeDist_multiple by done. simpl.
          eexists. split_and!; [done | by left | by apply list_elem_of_singleton].
        + rewrite upgradeBuild_script by done. simpl.
          eexists. split_and!; [done | by right | by apply list_elem_of_singleton]. }
    split; [apply Hfail|].
    intros legacyCfg upgradedCfg Hk. revert upgradedCfg.
    apply upgradeLegacyConfig_not_Ok with (k := k) (legacyProduct := legacyProduct); [done|].
    intros up. destruct (Hfail (upgradeProductDefaults legacyCfg)) as (e & -> & _). done.
  - intros legacyDist up Hdist Hup.
    apply upgradeProduct_Ok in Hup
      as (build & legacyDists & dist & deps0 & publish & docker
          & _ & Hdists & Hupgrade & _ & _ & Hupdist & _).
    rewrite Hdist, defaultDist_present in Hdists by done. injection Hdists as <-.
    apply upgradeDist_single_Ok in Hupgrade
      as (typeName & cfg & HtypeName & -> & Htype & _ & _).
    eexists typeName, _, cfg. split_and!; try done. apply map_size_singleton.
Qed.

(** C5, amended: for every legacy product whose build section is not
    skipped and has no script, and which has no dist entry but a non-empty
    build OS/arch list, the loop body gives the product one dist entry of
    type os-arch-bin, flagged as legacy, with the OS/arch list of the
    build section, and goes on as it does for the product with that dist
    entry; a dist list with an entry is left as it is. *)
Theorem default_dist_for_build_os_archs productDefaults k legacyProduct :
  Build.Skip (Product.Build legacyProduct) = false →
  Build.Script (Product.Build legacyProduct) = "" →
  Product.Dist legacyProduct = [] →
  0 < length (Build.OSArchs (Product.Build legacyProduct)) →
  let osArchs := Build.OSArchs (Product.Build legacyProduct) in
  (∃ build, upgradeBuild k (Product.Build legacyProduct) = Ok (Some build) ∧
            defaultDist (Product.Dist legacyProduct) (Some build) =
              Ok [defaultOSArchBinDist osArchs]) ∧
  Dist.DistType (defaultOSArchBinDist osArchs) =
    {| DistInfo.Type_ := "os-arch-bin";
       DistInfo.Info := DistInfo.Info_OSArchBinDist
         {| OSArchBinDist.Legacy := true; OSArchBinDist.OSArchs := osArchs |} |} ∧
  upgradeProduct' productDefaults k legacyProduct =
    upgradeProduct' productDefaults k
      (Product.set_Dist [defaultOSArchBinDist osArchs] legacyProduct) ∧
  (∀ legacyDists productBuild,
     legacyDists ≠ [] → defaultDist legacyDists productBuild = Ok legacyDists).
Proof.
  intros Hskip Hscript Hdist Hlen osArchs.
  destruct (upgradeBuild_OSArchs k _ Hskip Hscript) as (build & Hbuild & HosArchs).
  rewrite bool_decide_eq_true_2 in HosArchs by done.
  assert (defaultDist (Product.Dist legacyProduct) (Some build) =
          Ok [defaultOSArchBinDist osArchs]) as Hdefault.
  { unfold defaultDist. rewrite Hdist. simpl. rewrite HosArchs.
    by rewrite bool_decide_eq_true_2. }
  split_and!.
  - by exists build.
  - done.
  - unfold upgradeProduct.
    cbn [Product.set_Dist Product.Build Product.Run Product.Dist Product.DockerImages].
    rewrite Hbuild, !bind_Ok_l, Hdefault. by rewrite defaultDist_present.
  - intros. by apply defaultDist_present.
Qed.


(** ** The dependency list *)

Lemma foldl_addDepIfNotPresent l acc :
  foldl addDepIfNotPresent acc l = acc ++ filter (λ y, y ∉ acc) (dedupFirstSeen l).
Proof.
  revert acc. induction l as [|x l IH]; intros acc.
  - by rewrite app_nil_r.
  - simpl. unfold addDepIfNotPresent at 2. case_bool_decide as Hx; rewrite IH.
    + rewrite filter_cons_False by (by intros []). f_equal.
      rewrite list_filter_filter. apply list_filter_iff. intros y.
      split; [|tauto]. intros Hy. split; [done|]. by intros ->.
    + rewrite filter_cons_True, <-(assoc_L (++)) by done. do 2 f_equal.
      rewrite list_filter_filter. apply list_filter_iff. intros y.
      rewrite not_elem_of_app, list_elem_of_singleton. tauto.
Qed.

Lemma foldl_addDepIfNotPresent_nil l : foldl addDepIfNotPresent [] l = dedupFirstSeen l.
Proof.
  rewrite foldl_addDepIfNotPresent. simpl.
  induction (dedupFirstSeen l) as [|x l' IH]; [done|].
  by rewrite filter_cons_True, IH by apply not_elem_of_nil.
Qed.









(** [upgradeLegacyConfig] never returns the nil pointer, and so
    [UpgradeConfig] never returns nil bytes without an error. *)
Lemma upgradeLegacyConfig_not_nil legacyCfg : upgradeLegacyConfig' legacyCfg ≠ Ok None.
Proof. unfold upgradeLegacyConfig. rewrite bind_Ok. by intros (? & _ & ?). Qed.

Lemma UpgradeConfig_not_nil cfgBytes : UpgradeConfig' cfgBytes ≠ Ok None.
Proof.
  unfold UpgradeConfig. rewrite bind_Ok. intros (legacyCfg & _ & Hrest).
  rewrite bind_Ok in Hrest. destruct Hrest as ([upgradedCfg|] & Hup & Hrest).
  - rewrite bind_Ok in Hrest. by destruct Hrest as (? & _ & ?).
  - pose proof (upgradeLegacyConfig_not_nil legacyCfg) as Hnil.
    by destruct (upgradeLegacyConfig' legacyCfg) as [[?|]| |].
Qed.

End upgrade_facts.

(** ** The properties on concrete configurations *)

(** C1: the upgrade of the empty legacy configuration returns the empty
    upgraded configuration and its marshalled bytes, not the nil result
    that [UpgradeConfig] tests for; no legacy configuration gives that
    result. *)
Theorem empty_configuration_is_upgraded_to_empty :
  standInUpgradeLegacyConfig Project_zero =
    Ok (Some {|
      v0.ProjectConfig.Products := None;
      v0.ProjectConfig.ProductDefaults := v0.ProductConfig.empty;
      v0.ProjectConfig.ScriptIncludes := "";
      v0.ProjectConfig.Exclude := matcher.mk [] [];
    |}) ∧
  standInUpgradeConfig "" = Ok (Some "{}") ∧
  (∀ O disterFactory dockerBuilderFactory publisherFactory legacyCfg,
     upgradeLegacyConfig O disterFactory dockerBuilderFactory publisherFactory legacyCfg
       ≠ Ok None) ∧
  (∀ O disterFactory dockerBuilderFactory publisherFactory cfgBytes,
     UpgradeConfig O disterFactory dockerBuilderFactory publisherFactory cfgBytes
       ≠ Ok None).
Proof.
  split_and!.
  - by vm_compute.
  - by vm_compute.
  - apply upgradeLegacyConfig_not_nil.
  - apply UpgradeConfig_not_nil.
Qed.


(** The product's own identifier among the input products of its dist
    entry is kept: only the docker dependencies are compared with it. *)
Lemma own_identifier_among_input_products_is_kept :
  ∃ up,
    standInUpgradeProduct v0.ProductConfig.empty "c"
      (productOf Build_zero
         [Dist.mk "" "" ["c"; "d"; "c"] ""
            (DistInfo.mk BinDistType (DistInfo.Info_BinDist (BinDist.mk false None "")))
            Publish_zero]) = Ok up ∧
    v0.ProductConfig.Dependencies up = Some ["c"; "d"].
Proof. eexists. split; by vm_compute. Qed.


(** A product whose build section is skipped and has a script, with a bin
    dist entry, is upgraded, to a product without a build section; so is
    the configuration that holds it. *)
Lemma build_script_of_skipped_build_is_ignored :
  Build.Script (Product.Build (productOf buildSkippedWithScript [binDistEntry None "" ""]))
    = "make" ∧
  standInUpgradeProduct v0.ProductConfig.empty "foo"
    (productOf buildSkippedWithScript [binDistEntry None "" ""]) =
    Ok {|
      v0.ProductConfig.Build := None;
      v0.ProductConfig.Run := None;
      v0.ProductConfig.Dist := Some {|
        v0.DistConfig.OutputDir := None;
        v0.DistConfig.Disters := Some {[ "bin" := {|
          v0.DisterConfig.Type_ := Some "bin";
          v0.DisterConfig.Config := None;
          v0.DisterConfig.Script := None;
        |} ]};
      |};
      v0.ProductConfig.Publish := None;
      v0.ProductConfig.Docker := None;
      v0.ProductConfig.Dependencies := None;
    |} ∧
  ∃ upgradedCfg,
    standInUpgradeLegacyConfig
      (projectOf "foo" (productOf buildSkippedWithScript [binDistEntry None "" ""])) =
      Ok (Some upgradedCfg).
Proof. split_and!; [done | by vm_compute | eexists; by vm_compute]. Qed.

Lemma build_script_fails_unless_build_skipped_witness :
  Build.Skip (Product.Build (productOf buildWithScript [])) = false ∧
  Build.Script (Product.Build (productOf buildWithScript [])) ≠ "" ∧
  standInUpgradeProduct v0.ProductConfig.empty "foo" (productOf buildWithScript []) =
    Err (errors_Errorf build_script_unsupported ["foo"]).
Proof.
  split; [reflexivity|]. split; [discriminate|].
  apply (build_script_fails_unless_build_skipped standInOutside standInDisterFactory
           standInDockerBuilderFactory standInPublisherFactory v0.ProductConfig.empty
           "foo" (productOf buildWithScript [])); [reflexivity | discriminate].
Defined.

Lemma one_dist_per_product_witness :
  (∃ e,
     standInUpgradeProduct v0.ProductConfig.empty "foo"
       (productOf Build_zero [manualDistEntry; binDistEntry None "" ""]) = Err e ∧
     (e = errors_Errorf multiple_dists_unsupported ["foo"] ∨
      e = errors_Errorf build_script_unsupported ["foo"]) ∧
     "foo" ∈ error_args e) ∧
  ∃ up,
    standInUpgradeProduct v0.ProductConfig.empty "foo" (productOf Build_zero [manualDistEntry])
      = Ok up ∧
    ∃ typeName dist cfg,
      disterTypeName standInOutside ManualDistType = Some typeName ∧
      v0.ProductConfig.Dist up = Some dist ∧
      v0.DistConfig.Disters dist = Some {[ typeName := cfg ]} ∧
      size ({[ typeName := cfg ]} : gmap string v0.DisterConfig.t) = 1 ∧
      v0.DisterConfig.Type_ cfg = Some typeName.
Proof.
  split.
  - apply (proj1 (one_dist_per_product standInOutside standInDisterFactory
             standInDockerBuilderFactory standInPublisherFactory v0.ProductConfig.empty
             "foo" (productOf Build_zero [manualDistEntry; binDistEntry None "" ""]))).
    simpl. lia.
  - assert (∃ up, standInUpgradeProduct v0.ProductConfig.empty "foo"
                    (productOf Build_zero [manualDistEntry]) = Ok up)
      as [up Hup] by (eexists; vm_compute; reflexivity).
    exists up. split; [exact Hup|].
    apply (proj2 (one_dist_per_product standInOutside standInDisterFactory
             standInDockerBuilderFactory standInPublisherFactory v0.ProductConfig.empty
             "foo" (productOf Build_zero [manualDistEntry])) manualDistEntry up);
      [reflexivity | exact Hup].
Defined.

(** A product with build OS/arch targets and no dist entry gets no dist
    entry when its build section has a script, which fails the upgrade
    before the dist entries are looked at, nor when its build section is
    skipped, where the loop body reads the build configuration it has not
    set. *)
Lemma no_default_dist_with_build_script_or_skip :
  Product.Dist (productOf buildWithScriptAndOSArchs []) = [] ∧
  Build.OSArchs (Product.Build (productOf buildWithScriptAndOSArchs [])) = [linuxAmd64] ∧
  standInUpgradeProduct v0.ProductConfig.empty "foo" (productOf buildWithScriptAndOSArchs [])
    = Err (errors_Errorf build_script_unsupported ["foo"]) ∧
  Product.Dist (productOf buildSkippedWithOSArchs []) = [] ∧
  Build.OSArchs (Product.Build (productOf buildSkippedWithOSArchs [])) = [linuxAmd64] ∧
  standInUpgradeProduct v0.ProductConfig.empty "foo" (productOf buildSkippedWithOSArchs [])
    = Panic NilPointerDereference.
Proof. split_and!; by vm_compute. Qed.

Lemma default_dist_for_build_os_archs_witness :
  (∃ build,
     upgradeBuild "foo" buildWithOSArchs = Ok (Some build) ∧
     defaultDist [] (Some build) = Ok [defaultOSArchBinDist [linuxAmd64]]) ∧
  standInUpgradeProduct v0.ProductConfig.empty "foo" (productOf buildWithOSArchs []) =
  standInUpgradeProduct v0.ProductConfig.empty "foo"
    (productOf buildWithOSArchs [defaultOSArchBinDist [linuxAmd64]]) ∧
  ∃ up dist,
    standInUpgradeProduct v0.ProductConfig.empty "foo" (productOf buildWithOSArchs []) = Ok up ∧
    v0.ProductConfig.Dist up = Some dist ∧
    v0.DistConfig.Disters dist = Some {[ "os-arch-bin" := {|
      v0.DisterConfig.Type_ := Some "os-arch-bin";
      v0.DisterConfig.Config := Some [];
      v0.DisterConfig.Script := None;
    |} ]}.
Proof.
  pose proof (default_dist_for_build_os_archs standInOutside standInDisterFactory
                standInDockerBuilderFactory standInPublisherFactory v0.ProductConfig.empty
                "foo" (productOf buildWithOSArchs [])
                eq_refl eq_refl eq_refl ltac:(simpl; lia)) as (Hstep & _ & Hsame & _).
  split; [exact Hstep|]. split; [exact Hsame|].
  do 2 eexists. split; [vm_compute; reflexivity|]. split; vm_compute; reflexivity.
Defined.


(** C10: a product whose build section is skipped and has a script is
    upgraded, to a product without a build section, when it has a dist
    entry; without a dist entry the loop body panics on the build
    configuration it has not set, and so does the upgrade of the
    configuration that holds the product. *)
Theorem skipped_build_without_dist_panics :
  Build.Skip buildSkippedWithScript = true ∧
  upgradeBuild "foo" buildSkippedWithScript = Ok None ∧
  (∃ up,
     standInUpgradeProduct v0.ProductConfig.empty "foo"
       (productOf buildSkippedWithScript [manualDistEntry]) = Ok up ∧
     v0.ProductConfig.Build up = None) ∧
  standInUpgradeProduct v0.ProductConfig.empty "foo" (productOf buildSkippedWithScript [])
    = Panic NilPointerDereference ∧
  standInUpgradeLegacyConfig (projectOf "foo" (productOf buildSkippedWithScript []))
    = Panic NilPointerDereference.
Proof.
  split_and!; try by vm_compute.
  eexists. split; [by vm_compute | done].
Qed.

(** * Further properties of the package *)

(** ** The dependency list helper *)

(** X1: adding a product to a dependency list keeps the list as a prefix of
    the result, leaves the product in the result, changes nothing when the
    product is there already, and keeps a list free of duplicates free of
    duplicates. *)
Theorem addDepIfNotPresent_keeps_order_and_NoDup deps productID :
  deps `prefix_of` addDepIfNotPresent deps productID ∧
  productID ∈ addDepIfNotPresent deps productID ∧
  (productID ∈ deps → addDepIfNotPresent deps productID = deps) ∧
  addDepIfNotPresent (addDepIfNotPresent deps productID) productID =
    addDepIfNotPresent deps productID ∧
  (NoDup deps → NoDup (addDepIfNotPresent deps productID)).
Proof.
  unfold addDepIfNotPresent. case_bool_decide as Hin.
  - rewrite bool_decide_eq_true_2 by done. by split_and!.
  - rewrite bool_decide_eq_true_2 by (apply elem_of_app; right; by apply list_elem_of_singleton).
    split_and!; try done.
    + by apply prefix_app_r.
    + apply elem_of_app. right. by apply list_elem_of_singleton.
    + intros Hnodup. apply NoDup_app. split_and!; [done | | apply NoDup_singleton].
      intros x Hx ->%list_elem_of_singleton. done.
Qed.

Lemma addDepIfNotPresent_keeps_order_and_NoDup_witness :
  "b" ∈ ["a"; "b"] ∧ NoDup ["a"; "b"] ∧
  addDepIfNotPresent ["a"; "b"] "b" = ["a"; "b"] ∧
  NoDup (addDepIfNotPresent ["a"; "b"] "b").
Proof.
  pose proof (addDepIfNotPresent_keeps_order_and_NoDup ["a"; "b"] "b")
    as (_ & _ & Hsame & _ & Hnodup).
  assert ("b" ∈ ["a"; "b"]) as Hin by compute_done.
  assert (NoDup ["a"; "b"]) as Hnd by compute_done.
  split; [exact Hin|]. split; [exact Hnd|]. split; [exact (Hsame Hin) | exact (Hnodup Hnd)].
Defined.

(** ** The type-tagged decoders *)

(** X2: when [DistInfo.UnmarshalYAML] succeeds, the type is the one the
    default decoding read and, for each of the five known types, [Info]
    holds the struct of that type; for any other type the default decoding
    is returned as it is. *)
Theorem DistInfo_UnmarshalYAML_info_matches_type unmarshal cfg :
  DistInfo_UnmarshalYAML unmarshal = Ok cfg →
  ∃ raw,
    unmarshal_rawDistInfoConfigAlias unmarshal = Ok raw ∧
    DistInfo.Type_ cfg = DistInfo.Type_ raw ∧
    infoMatchesType cfg = true ∧
    (DistInfo.Type_ raw ∉ [SLSDistType; BinDistType; ManualDistType; OSArchBinDistType;
                            RPMDistType] → cfg = raw).
Proof.
  unfold DistInfo_UnmarshalYAML. rewrite bind_Ok. intros (raw & Hraw & Hcfg).
  exists raw. split; [done|]. destruct raw as [type info]. simpl in Hcfg.
  destruct (decide (type = SLSDistType)) as [->|Hsls].
  { rewrite bind_Ok in Hcfg. destruct Hcfg as (typed & _ & [= <-]).
    split_and!; [done | done | intros Hnot; exfalso; apply Hnot; set_solver]. }
  destruct (decide (type = BinDistType)) as [->|Hbin].
  { rewrite bind_Ok in Hcfg. destruct Hcfg as (typed & _ & [= <-]).
    split_and!; [done | done | intros Hnot; exfalso; apply Hnot; set_solver]. }
  destruct (decide (type = ManualDistType)) as [->|Hmanual].
  { rewrite bind_Ok in Hcfg. destruct Hcfg as (typed & _ & [= <-]).
    split_and!; [done | done | intros Hnot; exfalso; apply Hnot; set_solver]. }
  destruct (decide (type = OSArchBinDistType)) as [->|Hosarchbin].
  { rewrite bind_Ok in Hcfg. destruct Hcfg as (typed & _ & [= <-]).
    split_and!; [done | done | intros Hnot; exfalso; apply Hnot; set_solver]. }
  destruct (decide (type = RPMDistType)) as [->|Hrpm].
  { rewrite bind_Ok in Hcfg. destruct Hcfg as (typed & _ & [= <-]).
    split_and!; [done | done | intros Hnot; exfalso; apply Hnot; set_solver]. }
  injection Hcfg as <-. split_and!; [done | | done].
  unfold infoMatchesType. simpl. by rewrite !decide_False by done.
Qed.

Lemma DistInfo_UnmarshalYAML_info_matches_type_witness :
  infoMatchesType (DistInfo.mk "bin" (DistInfo.Info_BinDist (BinDist.mk false (Some false) "")))
    = true.
Proof.
  destruct (DistInfo_UnmarshalYAML_info_matches_type
    {| unmarshal_rawDistInfoConfigAlias := Ok (DistInfo.mk "bin" (DistInfo.Info_yaml YNull));
       unmarshal_typedSLSDist := Err (errors_New "not an sls dist");
       unmarshal_typedBinDist := Ok ("bin", BinDist.mk false (Some false) "");
       unmarshal_typedManualDist := Err (errors_New "not a manual dist");
       unmarshal_typedOSArchBinDist := Err (errors_New "not an os-arch-bin dist");
       unmarshal_typedRPMDist := Err (errors_New "not an rpm dist") |}
    (DistInfo.mk "bin" (DistInfo.Info_BinDist (BinDist.mk false (Some false) "")))
    eq_refl) as (raw & _ & _ & Hmatch & _).
  exact Hmatch.
Defined.

(** X3: [DistInfo.UnmarshalYAML] returns the error of the default decoding
    when that fails, and for a known type the error of the typed decoding:
    a dist info of a known type whose payload does not decode is
    rejected. *)
Theorem DistInfo_UnmarshalYAML_errors unmarshal :
  (∀ err, unmarshal_rawDistInfoConfigAlias unmarshal = Err err →
          DistInfo_UnmarshalYAML unmarshal = Err err) ∧
  (∀ info err,
     unmarshal_rawDistInfoConfigAlias unmarshal = Ok (DistInfo.mk BinDistType info) →
     unmarshal_typedBinDist unmarshal = Err err →
     DistInfo_UnmarshalYAML unmarshal = Err err) ∧
  (∀ info err,
     unmarshal_rawDistInfoConfigAlias unmarshal = Ok (DistInfo.mk SLSDistType info) →
     unmarshal_typedSLSDist unmarshal = Err err →
     DistInfo_UnmarshalYAML unmarshal = Err err) ∧
  (∀ info err,
     unmarshal_rawDistInfoConfigAlias unmarshal = Ok (DistInfo.mk ManualDistType info) →
     unmarshal_typedManualDist unmarshal = Err err →
     DistInfo_UnmarshalYAML unmarshal = Err err) ∧
  (∀ info err,
     unmarshal_rawDistInfoConfigAlias unmarshal = Ok (DistInfo.mk OSArchBinDistType info) →
     unmarshal_typedOSArchBinDist unmarshal = Err err →
     DistInfo_UnmarshalYAML unmarshal = Err err) ∧
  (∀ info err,
     unmarshal_rawDistInfoConfigAlias unmarshal = Ok (DistInfo.mk RPMDistType info) →
     unmarshal_typedRPMDist unmarshal = Err err →
     DistInfo_UnmarshalYAML unmarshal = Err err).
Proof.
  unfold DistInfo_UnmarshalYAML.
  split_and!; [by intros err -> | intros info err -> Htyped; simpl; by rewrite Htyped ..].
Qed.

Lemma DistInfo_UnmarshalYAML_errors_witness :
  DistInfo_UnmarshalYAML
    {| unmarshal_rawDistInfoConfigAlias := Ok (DistInfo.mk "bin" (DistInfo.Info_yaml YNull));
       unmarshal_typedSLSDist := Err (errors_New "not an sls dist");
       unmarshal_typedBinDist := Err (errors_New "omit-init-sh is not a bool");
       unmarshal_typedManualDist := Err (errors_New "not a manual dist");
       unmarshal_typedOSArchBinDist := Err (errors_New "not an os-arch-bin dist");
       unmarshal_typedRPMDist := Err (errors_New "not an rpm dist") |}
  = Err (errors_New "omit-init-sh is not a bool").
Proof.
  apply (proj1 (proj2 (DistInfo_UnmarshalYAML_errors _)) (DistInfo.Info_yaml YNull));
    reflexivity.
Defined.



(** ** Errors of the upgrade *)

Section result_failure_facts.
Context {A B : Type}.
Implicit Types (m : Result A) (f : A → Result B).

Lemma bind_Err m f e : m ≫= f = Err e ↔ m = Err e ∨ ∃ a, m = Ok a ∧ f a = Err e.
Proof.
  destruct m as [a|e'|p]; simpl.
  - split; [intros ?; right; by exists a | by intros [? | (? & [= <-] & ?)]].
  - split; [intros [= ->]; by left | by intros [[= ->] | (? & ? & ?)]].
  - split; [done | by intros [? | (? & ? & ?)]].
Qed.

Lemma bind_Panic m f p : m ≫= f = Panic p ↔ m = Panic p ∨ ∃ a, m = Ok a ∧ f a = Panic p.
Proof.
  destruct m as [a|e'|p']; simpl.
  - split; [intros ?; right; by exists a | by intros [? | (? & [= <-] & ?)]].
  - split; [done | by intros [? | (? & ? & ?)]].
  - split; [intros [= ->]; by left | by intros [[= ->] | (? & ? & ?)]].
Qed.

Lemma wrapf_Err m format args e :
  wrapf m format args = Err e ↔ ∃ cause, m = Err cause ∧ e = errors_Wrapf cause format args.
Proof.
  destruct m as [a|e'|p]; simpl.
  - split; [done | by intros (? & ? & ?)].
  - split; [intros [= <-]; by exists e' | by intros (? & [= <-] & ->)].
  - split; [done | by intros (? & ? & ?)].
Qed.

Lemma wrapf_Panic m format args p : wrapf m format args = Panic p ↔ m = Panic p.
Proof. destruct m; simpl; split; congruence. Qed.
End result_failure_facts.

(** A loop that returns an error returns the error of its body at one of
    the elements. *)
Lemma forRange_Err {A B} (body : B → A → Result B) l b e :
  forRange body l b = Err e → ∃ b' x, x ∈ l ∧ body b' x = Err e.
Proof.
  revert b. induction l as [|y l IH]; intros b; [done|].
  simpl. rewrite bind_Err. intros [Hy | (b1 & _ & Hrest)].
  - exists b, y. split; [apply list_elem_of_here | done].
  - destruct (IH _ Hrest) as (b' & x & Hx & Hbody).
    exists b', x. split; [by apply list_elem_of_further | done].
Qed.

Lemma forRangeIndexed_Err {A B} (body : B → nat → A → Result B) i l b e :
  forRangeIndexed body i l b = Err e → ∃ b' j x, x ∈ l ∧ body b' j x = Err e.
Proof.
  revert i b. induction l as [|y l IH]; intros i b; [done|].
  simpl. rewrite bind_Err. intros [Hy | (b1 & _ & Hrest)].
  - exists b, i, y. split; [apply list_elem_of_here | done].
  - destruct (IH _ _ Hrest) as (b' & j & x & Hx & Hbody).
    exists b', j, x. split; [by apply list_elem_of_further | done].
Qed.

(** Takes an equation between a step of the upgrade and an error apart,
    down to the call that returned the error. *)
Ltac error_site :=
  repeat match goal with
  | H : _ ≫= _ = Err _ |- _ => apply bind_Err in H as [H | (? & _ & H)]
  | H : wrapf _ _ _ = Err _ |- _ => apply wrapf_Err in H as (? & _ & ->)
  | H : Err _ = Err _ |- _ => injection H as <-
  | H : Ok _ = Err _ |- _ => discriminate H
  | H : Panic _ = Err _ |- _ => discriminate H
  | H : (let '(_, _) := ?x in _) = Err _ |- _ => destruct x
  | H : (if ?b then _ else _) = Err _ |- _ => destruct b
  | H : match ?x with _ => _ end = Err _ |- _ => destruct x
  end.

Section error_facts.
Context (O : Outside).
Context (disterFactory : DisterFactory).
Context (dockerBuilderFactory : DockerBuilderFactory).
Context (publisherFactory : PublisherFactory).

Local Abbreviation upgradeProduct' :=
  (upgradeProduct O disterFactory dockerBuilderFactory publisherFactory).
Local Abbreviation upgradeLegacyConfig' :=
  (upgradeLegacyConfig O disterFactory dockerBuilderFactory publisherFactory).

Lemma upgradeDistType_unknown k legacyDist :
  disterTypeName O (DistInfo.Type_ (Dist.DistType legacyDist)) = None →
  upgradeDistType O k legacyDist =
    Err (errors_Errorf "product %q specifies unsupported dist type %q"
           [k; DistInfo.Type_ (Dist.DistType legacyDist)]).
Proof. unfold disterTypeName, upgradeDistType. by repeat case_decide. Qed.

(** X5: a product with one dist entry whose type is none of sls, bin,
    os-arch-bin, manual and rpm (an entry without a dist type among them)
    is not upgraded: unless the build script error comes first, the error
    is the unsupported-dist-type error with the product and the type. *)
Theorem unknown_dist_type_is_rejected productDefaults k legacyProduct legacyDist :
  Product.Dist legacyProduct = [legacyDist] →
  disterTypeName O (DistInfo.Type_ (Dist.DistType legacyDist)) = None →
  Build.Skip (Product.Build legacyProduct) = true ∨
    Build.Script (Product.Build legacyProduct) = "" →
  upgradeProduct' productDefaults k legacyProduct =
    Err (errors_Errorf "product %q specifies unsupported dist type %q"
           [k; DistInfo.Type_ (Dist.DistType legacyDist)]).
Proof.
  intros Hdist Htype Hbuild. unfold upgradeProduct.
  assert (∃ build, upgradeBuild k (Product.Build legacyProduct) = Ok build) as [build ->].
  { destruct (Build.Skip (Product.Build legacyProduct)) eqn:Hskip.
    - exists None. by apply upgradeBuild_skip.
    - destruct Hbuild as [|Hscript]; [done|].
      destruct (upgradeBuild_OSArchs k _ Hskip Hscript) as (build & -> & _). eauto. }
  rewrite bind_Ok_l, Hdist, defaultDist_present, bind_Ok_l by done.
  unfold upgradeDist. rewrite bool_decide_eq_false_2 by (simpl; lia).
  by rewrite upgradeDistType_unknown.
Qed.

Lemma upgradeBuild_Err k legacyBuild e :
  upgradeBuild k legacyBuild = Err e → k ∈ error_args e.
Proof. unfold upgradeBuild. intros H. error_site. simpl. set_solver. Qed.

Lemma upgradeDistType_Err k legacyDist e :
  upgradeDistType O k legacyDist = Err e → k ∈ error_args e.
Proof. unfold upgradeDistType. intros H. error_site; simpl; set_solver. Qed.

Lemma upgradeDisterConfig_Err k distType cfg cfgBytes e :
  upgradeDisterConfig O disterFactory k distType cfg cfgBytes = Err e → k ∈ error_args e.
Proof. unfold upgradeDisterConfig. intros H. error_site; simpl; set_solver. Qed.

Lemma upgradeDistPublish_Err k legacyPublish e :
  upgradeDistPublish O publisherFactory k legacyPublish = Err e → k ∈ error_args e.
Proof. unfold upgradeDistPublish. intros H. error_site; simpl; set_solver. Qed.

Lemma upgradeDist_Err k legacyDists e :
  upgradeDist O disterFactory publisherFactory k legacyDists = Err e → k ∈ error_args e.
Proof.
  unfold upgradeDist. destruct legacyDists as [|legacyDist rest]; [done|].
  case_bool_decide; [intros [= <-]; simpl; set_solver|].
  rewrite bind_Err. intros [Hswitch | ([cfg cfgBytes] & _ & Hrest)].
  { by eapply upgradeDistType_Err. }
  rewrite bind_Err in Hrest. destruct Hrest as [Hcfg | (cfg' & _ & Hrest)].
  { by eapply upgradeDisterConfig_Err. }
  destruct (v0.DisterConfig.Type_ _); [|done].
  rewrite bind_Err in Hrest. destruct Hrest as [Hpublish | (? & _ & ?)]; [|done].
  by eapply upgradeDistPublish_Err.
Qed.

Lemma upgradeDockerDep_Err k st dep e :
  upgradeDockerDep k st dep = Err e → k ∈ error_args e.
Proof.
  unfold upgradeDockerDep. destruct st as [inputDists dependencies].
  intros H. error_site; simpl; set_solver.
Qed.

Lemma upgradeDockerImageInfo_Err k info cfg e :
  upgradeDockerImageInfo O dockerBuilderFactory k info cfg = Err e → k ∈ error_args e.
Proof. unfold upgradeDockerImageInfo. intros H. error_site; simpl; set_solver. Qed.

Lemma upgradeDockerImage_Err k st i image e :
  upgradeDockerImage O dockerBuilderFactory k st i image = Err e → k ∈ error_args e.
Proof.
  unfold upgradeDockerImage. destruct st as [builders dependencies].
  rewrite bind_Err. intros [Hdeps | ([inputDists dependencies'] & _ & Hrest)].
  - apply forRange_Err in Hdeps as (st & dep & _ & Hdep). by eapply upgradeDockerDep_Err.
  - rewrite bind_Err in Hrest. destruct Hrest as [Hinfo | (? & _ & ?)]; [|done].
    by eapply upgradeDockerImageInfo_Err.
Qed.

Lemma upgradeDocker_Err k images dependencies e :
  upgradeDocker O dockerBuilderFactory k images dependencies = Err e → k ∈ error_args e.
Proof.
  unfold upgradeDocker. case_bool_decide; [|done].
  rewrite bind_Err. intros [Hloop | ([? ?] & _ & ?)]; [|done].
  apply forRangeIndexed_Err in Hloop as (st & i & image & _ & Himage).
  by eapply upgradeDockerImage_Err.
Qed.

Lemma upgradeProduct_Err productDefaults k legacyProduct e :
  upgradeProduct' productDefaults k legacyProduct = Err e → k ∈ error_args e.
Proof.
  unfold upgradeProduct.
  rewrite bind_Err. intros [Hbuild | (build & _ & Hrest)].
  { by eapply upgradeBuild_Err. }
  rewrite bind_Err in Hrest. destruct Hrest as [Hdefault | (legacyDists & _ & Hrest)].
  { unfold defaultDist in Hdefault. by error_site. }
  rewrite bind_Err in Hrest.
  destruct Hrest as [Hdist | ([[dist dependencies] publish] & _ & Hrest)].
  { by eapply upgradeDist_Err. }
  rewrite bind_Err in Hrest. destruct Hrest as [Hdocker | ([? ?] & _ & ?)]; [|done].
  by eapply upgradeDocker_Err.
Qed.

Lemma upgradeLegacyConfig_Err legacyCfg e :
  upgradeLegacyConfig' legacyCfg = Err e →
  ∃ k, is_Some (Project.Products legacyCfg !! k) ∧ k ∈ error_args e.
Proof.
  unfold upgradeLegacyConfig.
  rewrite bind_Err. intros [Hloop | (? & _ & ?)]; [|done].
  apply forRange_Err in Hloop as (products & k & Hk & Hbody).
  exists k. split; [by apply elem_of_sortedProductsKeys|].
  unfold upgradeProductAt in Hbody. rewrite bind_Err in Hbody.
  destruct Hbody as [Hup | (up & _ & Hmap)]; [by eapply upgradeProduct_Err|].
  by destruct products.
Qed.

(** X6: every error the upgrade of a product returns, its own or that of
    the YAML library or of a plugin upgrader, which it wraps, has the
    product key among its arguments; every error the upgrade of a
    configuration returns has the key of one of its products there. *)
Theorem upgrade_errors_name_the_product :
  (∀ productDefaults k legacyProduct e,
     upgradeProduct' productDefaults k legacyProduct = Err e → k ∈ error_args e) ∧
  (∀ legacyCfg e,
     upgradeLegacyConfig' legacyCfg = Err e →
     ∃ k, is_Some (Project.Products legacyCfg !! k) ∧ k ∈ error_args e).
Proof. split; [apply upgradeProduct_Err | apply upgradeLegacyConfig_Err]. Qed.

(** ** The loop over the products *)

Local Abbreviation upgradeProductAt' :=
  (upgradeProductAt O disterFactory dockerBuilderFactory publisherFactory).

Lemma forRange_cons {A B} (body : B → A → Result B) x l b :
  forRange body (x :: l) b = body b x ≫= forRange body l.
Proof. done. Qed.

Lemma forRange_app {A B} (body : B → A → Result B) l1 l2 b :
  forRange body (l1 ++ l2) b = forRange body l1 b ≫= forRange body l2.
Proof.
  revert b. induction l1 as [|x l1 IH]; intros b; [done|].
  simpl. destruct (body b x) as [b'| |]; simpl; [apply IH | done | done].
Qed.











(** ** The publish configuration *)



(** ** The docker section *)

Lemma addAllIfNotPresent_app o l1 l2 :
  addAllIfNotPresent (addAllIfNotPresent o l1) l2 = addAllIfNotPresent o (l1 ++ l2).
Proof.
  destruct l1 as [|x1 l1]; [done|]. destruct l2 as [|x2 l2]; [by rewrite app_nil_r|].
  unfold addAllIfNotPresent. simpl default.
  change ((x1 :: l1) ++ x2 :: l2) with (x1 :: (l1 ++ x2 :: l2)). cbv iota. f_equal.
  change (x1 :: (l1 ++ x2 :: l2)) with ((x1 :: l1) ++ x2 :: l2).
  by rewrite foldl_app.
Qed.

Lemma addAllIfNotPresent_None l :
  addAllIfNotPresent None l = if decide (l = []) then None else Some (dedupFirstSeen l).
Proof.
  destruct l as [|x l]; [done|]. unfold addAllIfNotPresent.
  rewrite decide_False by done. f_equal. apply foldl_addDepIfNotPresent_nil.
Qed.

Lemma knownDockerDepType_cases dep :
  knownDockerDepType dep ↔
  DockerDep.Type_ dep = "docker" ∨ DockerDep.Type_ dep = "bin" ∨ DockerDep.Type_ dep = "sls".
Proof.
  unfold knownDockerDepType. rewrite !elem_of_cons, elem_of_nil. tauto.
Qed.

Lemma upgradeDockerDep_unknown k st dep :
  ¬ knownDockerDepType dep →
  upgradeDockerDep k st dep =
    Err (errors_Errorf
      "product %q has a Docker image configuration that declares a Docker dependency of type %q, which is not supported"
      [k; DockerDep.Type_ dep]).
Proof.
  rewrite knownDockerDepType_cases. intros Hunknown.
  unfold upgradeDockerDep. destruct st as [inputDists dependencies]. cbv zeta.
  destruct (decide (DockerDep.Type_ dep = "docker")); [tauto|].
  destruct (decide (DockerDep.Type_ dep = "bin" ∨ DockerDep.Type_ dep = "sls")); [tauto|].
  done.
Qed.

Lemma upgradeDockerDep_known k inputDists dependencies dep :
  knownDockerDepType dep →
  ∃ dependencies',
    upgradeDockerDep k (inputDists, dependencies) dep =
      Ok (addAllIfNotPresent inputDists (dockerInputDistIDs [dep]), dependencies').
Proof.
  rewrite knownDockerDepType_cases. intros Hknown.
  unfold upgradeDockerDep, dockerInputDistIDs. cbv zeta.
  destruct (decide (DockerDep.Type_ dep = "docker")) as [Hdocker|Hdocker].
  - rewrite filter_cons_False by (rewrite Hdocker; by intros [|]).
    rewrite bind_Ok_l. by eexists.
  - destruct (decide (DockerDep.Type_ dep = "bin" ∨ DockerDep.Type_ dep = "sls"));
      [|tauto].
    rewrite filter_cons_True by done. rewrite bind_Ok_l. by eexists.
Qed.

(** X10: the loop over the dependencies of a docker image succeeds when
    every dependency is of type docker, bin or sls, and then leaves as
    input dists the identifiers product.type of the bin and sls
    dependencies, without duplicates and in first-seen order (none when
    there is no such dependency); it returns the unsupported-type error
    with the product and the type of the first dependency of another
    type. *)
Theorem docker_dependency_types k deps dependencies :
  (Forall knownDockerDepType deps →
   ∃ dependencies',
     forRange (upgradeDockerDep k) deps (None, dependencies) =
       Ok (if decide (dockerInputDistIDs deps = []) then None
           else Some (dedupFirstSeen (dockerInputDistIDs deps)),
           dependencies')) ∧
  (∀ known unknown rest,
     deps = known ++ unknown :: rest →
     Forall knownDockerDepType known → ¬ knownDockerDepType unknown →
     forRange (upgradeDockerDep k) deps (None, dependencies) =
       Err (errors_Errorf
         "product %q has a Docker image configuration that declares a Docker dependency of type %q, which is not supported"
         [k; DockerDep.Type_ unknown])).
Proof.
  assert (∀ known inputDists dependencies,
            Forall knownDockerDepType known →
            ∃ dependencies',
              forRange (upgradeDockerDep k) known (inputDists, dependencies) =
                Ok (addAllIfNotPresent inputDists (dockerInputDistIDs known), dependencies'))
    as Hknown.
  { induction known as [|dep known IH]; intros inputDists deps0 Hall; [by eexists|].
    apply Forall_cons in Hall as [Hdep Hall].
    destruct (upgradeDockerDep_known k inputDists deps0 dep Hdep) as (deps1 & Hstep).
    rewrite forRange_cons, Hstep, bind_Ok_l.
    destruct (IH (addAllIfNotPresent inputDists (dockerInputDistIDs [dep])) deps1 Hall)
      as (deps2 & ->).
    exists deps2. rewrite addAllIfNotPresent_app. do 3 f_equal.
    unfold dockerInputDistIDs. by rewrite <-fmap_app, <-filter_app. }
  split.
  - intros Hall. destruct (Hknown deps None dependencies Hall) as (deps' & ->).
    exists deps'. by rewrite addAllIfNotPresent_None.
  - intros known unknown rest -> Hall Hunknown.
    destruct (Hknown known None dependencies Hall) as (deps' & Hloop).
    by rewrite forRange_app, Hloop, bind_Ok_l, forRange_cons, upgradeDockerDep_unknown.
Qed.

Lemma forRange_upgradeDockerDep_known k known inputDists dependencies :
  Forall knownDockerDepType known →
  ∃ dependencies',
    forRange (upgradeDockerDep k) known (inputDists, dependencies) =
      Ok (addAllIfNotPresent inputDists (dockerInputDistIDs known), dependencies').
Proof.
  revert inputDists dependencies.
  induction known as [|dep known IH]; intros inputDists deps0 Hall; [by eexists|].
  apply Forall_cons in Hall as [Hdep Hall].
  destruct (upgradeDockerDep_known k inputDists deps0 dep Hdep) as (deps1 & Hstep).
  rewrite forRange_cons, Hstep, bind_Ok_l.
  destruct (IH (addAllIfNotPresent inputDists (dockerInputDistIDs [dep])) deps1 Hall)
    as (deps2 & ->).
  exists deps2. rewrite addAllIfNotPresent_app. do 3 f_equal.
  unfold dockerInputDistIDs. by rewrite <-fmap_app, <-filter_app.
Qed.

Lemma forRange_upgradeDockerDep_Ok_known k deps st r :
  forRange (upgradeDockerDep k) deps st = Ok r → Forall knownDockerDepType deps.
Proof.
  revert st. induction deps as [|dep deps IH]; intros st; [by constructor|].
  rewrite forRange_cons, bind_Ok. intros (st1 & Hstep & Hrest).
  constructor; [|by eapply IH].
  destruct (decide (knownDockerDepType dep)) as [|Hunknown]; [done|].
  by rewrite upgradeDockerDep_unknown in Hstep.
Qed.

Lemma upgradeDockerImageInfo_Ok k info cfg cfg' :
  upgradeDockerImageInfo O dockerBuilderFactory k info cfg = Ok cfg' →
  v0.DockerBuilderConfig.Type_ cfg' =
    Some (if decide (DockerImageInfo.Type_ info = "sls") then "sls"
          else defaultdockerbuilder_TypeName O) ∧
  v0.DockerBuilderConfig.TagTemplates cfg' = v0.DockerBuilderConfig.TagTemplates cfg ∧
  v0.DockerBuilderConfig.ContextDir cfg' = v0.DockerBuilderConfig.ContextDir cfg ∧
  v0.DockerBuilderConfig.InputDists cfg' = v0.DockerBuilderConfig.InputDists cfg.
Proof.
  unfold upgradeDockerImageInfo.
  destruct (decide (DockerImageInfo.Type_ info = "sls")) as [Hsls|Hsls]; [|by intros [= <-]].
  destruct (DockerImageInfo.Data info); try done.
  rewrite bind_Ok. intros (cfgBytes & _ & Hcfg). revert Hcfg.
  case_bool_decide as Hlen; [|by intros [= <-]].
  rewrite bind_Ok. intros (upgrader & _ & Hcfg). rewrite bind_Ok in Hcfg.
  destruct Hcfg as (upgradedBytes & _ & Hcfg). rewrite bind_Ok in Hcfg.
  by destruct Hcfg as (cfgMapSlice & _ & [= <-]).
Qed.

Lemma upgradeDockerImage_Ok k builders dependencies i image builders' dependencies' :
  upgradeDockerImage O dockerBuilderFactory k (builders, dependencies) i image =
    Ok (builders', dependencies') →
  ∃ cfg, builders' = <[dockerImageID i := cfg]> builders ∧ builderOfImage O image cfg.
Proof.
  unfold upgradeDockerImage. rewrite bind_Ok.
  intros ([inputDists dependencies1] & Hdeps & Hrest).
  rewrite bind_Ok in Hrest. destruct Hrest as (cfg & Hinfo & [= <- _]).
  exists cfg. split; [done|].
  apply upgradeDockerImageInfo_Ok in Hinfo as (Htype & Htags & Hcontext & HinputDists).
  pose proof (forRange_upgradeDockerDep_Ok_known _ _ _ _ Hdeps) as Hknown.
  destruct (forRange_upgradeDockerDep_known k _
              (v0.DockerBuilderConfig.InputDists
                 (if decide (DockerImage.ContextDir image = "")
                  then if decide (DockerImage.Tag image = "") then v0.DockerBuilderConfig.empty
                       else v0.DockerBuilderConfig.set_TagTemplates
                              (Some [DockerImage.Tag image]) v0.DockerBuilderConfig.empty
                  else v0.DockerBuilderConfig.set_ContextDir
                         (stringPtr (DockerImage.ContextDir image))
                         (if decide (DockerImage.Tag image = "")
                          then v0.DockerBuilderConfig.empty
                          else v0.DockerBuilderConfig.set_TagTemplates
                                 (Some [DockerImage.Tag image]) v0.DockerBuilderConfig.empty)))
              dependencies Hknown) as (deps2 & Hloop).
  rewrite Hloop in Hdeps. injection Hdeps as <- _.
  unfold builderOfImage. rewrite Htype, Htags, Hcontext, HinputDists. simpl.
  split_and!; [done | by repeat case_decide | by repeat case_decide |].
  rewrite <-addAllIfNotPresent_None. by repeat case_decide.
Qed.

Lemma dockerImageID_inj i j : dockerImageID i = dockerImageID j → i = j.
Proof.
  intros Hij. unfold dockerImageID in Hij.
  by apply (inj (String.app "docker-image-")), (inj pretty) in Hij.
Qed.

(** The builders map after the loop over the images, which starts at the
    index [i]: a builder per image under the identifier of its index, the
    other keys as before, and as many more entries as there are images when
    none of the identifiers was taken. *)
Lemma forRangeIndexed_upgradeDockerImage_builders k images i builders dependencies
    builders' dependencies' :
  forRangeIndexed (upgradeDockerImage O dockerBuilderFactory k) i images
    (builders, dependencies) = Ok (builders', dependencies') →
  (∀ j image, images !! j = Some image →
     ∃ cfg, builders' !! dockerImageID (i + j) = Some cfg ∧ builderOfImage O image cfg) ∧
  (∀ key, (∀ j, j < length images → key ≠ dockerImageID (i + j)) →
     builders' !! key = builders !! key) ∧
  ((∀ j, j < length images → builders !! dockerImageID (i + j) = None) →
   size builders' = size builders + length images).
Proof.
  revert i builders dependencies.
  induction images as [|image images IH]; intros i builders dependencies.
  - intros [= <- _]. split_and!; [done | done | intros _; simpl; lia].
  - simpl forRangeIndexed. rewrite bind_Ok.
    intros ([builders1 dependencies1] & Himage & Hrest).
    apply upgradeDockerImage_Ok in Himage as (cfg & -> & Hcfg).
    apply IH in Hrest as (Hbuilders & Hother & Hsize).
    split_and!.
    + intros [|j] image' Hj.
      * injection Hj as <-. exists cfg. split; [|done].
        rewrite Hother, Nat.add_0_r; [apply lookup_insert_eq|].
        intros j _ Heq%dockerImageID_inj. lia.
      * replace (i + S j) with (S i + j) by lia. by apply Hbuilders.
    + intros key Hkey. rewrite Hother.
      * apply lookup_insert_ne. intros Heq. apply (Hkey 0); [simpl; lia|].
        by rewrite Nat.add_0_r.
      * intros j Hj. replace (S i + j) with (i + S j) by lia. apply Hkey. simpl. lia.
    + intros Hfree. rewrite Hsize.
      * rewrite map_size_insert_None; [simpl; lia|].
        rewrite <-(Nat.add_0_r i). apply Hfree. simpl. lia.
      * intros j Hj. rewrite lookup_insert_ne.
        -- replace (S i + j) with (i + S j) by lia. apply Hfree. simpl. lia.
        -- intros Heq%dockerImageID_inj. lia.
Qed.

(** X11: the docker section gives a product without docker images no
    docker configuration, and a product with images one builder per image,
    under the identifier docker-image-i of the index of the image and under
    no other key, with the builder type, tag template, context directory
    and input dists of that image. *)
Theorem docker_builders_of_images k images dependencies docker dependencies' :
  upgradeDocker O dockerBuilderFactory k images dependencies = Ok (docker, dependencies') →
  (images = [] → docker = None) ∧
  (images ≠ [] →
   ∃ builders,
     docker = Some {| v0.DockerConfig.DockerBuildersConfig := Some builders |} ∧
     size builders = length images ∧
     (∀ i image, images !! i = Some image →
        ∃ cfg, builders !! dockerImageID i = Some cfg ∧ builderOfImage O image cfg) ∧
     (∀ key, is_Some (builders !! key) → ∃ i, i < length images ∧ key = dockerImageID i)).
Proof.
  unfold upgradeDocker. case_bool_decide as Hlen.
  - rewrite bind_Ok. intros ([builders dependencies1] & Hloop & [= <- _]).
    split; [intros ->; simpl in Hlen; lia|]. intros _.
    apply forRangeIndexed_upgradeDockerImage_builders in Hloop as (Hbuilders & Hother & Hsize).
    exists builders. split_and!; [done | | done |].
    + rewrite Hsize, map_size_empty; [done|]. intros. apply lookup_empty.
    + intros key Hsome.
      destruct (decide (key ∈ dockerImageID <$> seq 0 (length images))) as [Hin|Hnotin].
      * apply list_elem_of_fmap in Hin as (i & -> & Hi%elem_of_seq). exists i. split; [lia|done].
      * rewrite Hother, lookup_empty in Hsome; [by destruct Hsome|].
        intros j Hj ->. apply Hnotin, list_elem_of_fmap. exists j. split; [done|].
        apply elem_of_seq. lia.
  - intros [= <- _]. split; [done|]. intros Hne. destruct images; [done | simpl in Hlen; lia].
Qed.

(** ** The dist section, for every dist type *)

(** X12: for an upgraded product with one dist entry, of any type, the
    dist configuration has the output directory of the entry, when it has
    one, and the one dister has a script exactly when the entry asks for
    the launcher script, has an input directory or has a script; a script
    that is set starts with the interpreter line and ends in a newline. *)
Theorem dist_script_of_every_dist_type productDefaults k legacyProduct legacyDist up :
  Product.Dist legacyProduct = [legacyDist] →
  upgradeProduct' productDefaults k legacyProduct = Ok up →
  ∃ typeName dist cfg,
    v0.ProductConfig.Dist up = Some dist ∧
    v0.DistConfig.OutputDir dist =
      (if decide (Dist.OutputDir legacyDist = "") then None
       else Some (Dist.OutputDir legacyDist)) ∧
    v0.DistConfig.Disters dist = Some {[ typeName := cfg ]} ∧
    v0.DisterConfig.Script cfg =
      scriptOfFragments (distScriptFragments (launcherRequested legacyDist) legacyDist) ∧
    (v0.DisterConfig.Script cfg = None ↔
       launcherRequested legacyDist = false ∧ Dist.InputDir legacyDist = "" ∧
       Dist.Script legacyDist = "") ∧
    (∀ script, v0.DisterConfig.Script cfg = Some script →
       strings.HasPrefix script ("#!/bin/bash" +:+ nl) = true ∧
       strings.HasSuffix script nl = true).
Proof.
  intros Hdist Hup.
  apply upgradeProduct_Ok in Hup
    as (build & legacyDists & dist & deps0 & publish & docker
        & _ & Hdists & Hupgrade & _ & _ & Hupdist & _).
  rewrite Hdist, defaultDist_present in Hdists by done. injection Hdists as <-.
  apply upgradeDist_single_Ok in Hupgrade
    as (typeName & cfg & _ & -> & _ & Hscript & _).
  eexists typeName, _, cfg. split_and!; try done.
  - rewrite Hscript. unfold distScriptFragments.
    destruct (launcherRequested legacyDist); repeat case_decide; simpl; split;
      try done; by intros (? & ? & ?).
  - intros script. rewrite Hscript.
    destruct (distScriptFragments (launcherRequested legacyDist) legacyDist)
      as [|fragment fragments]; [done|].
    intros [= <-]. split; [|apply foldl_appendToScript_ends_in_newline].
    simpl foldl. apply foldl_appendToScript_prefix; [apply appendToScript_nonempty|].
    destruct (appendToScript_unfold "" fragment) as (tail & _ & ->).
    rewrite decide_True by done. set (line := "#!/bin/bash" +:+ nl).
    rewrite append_assoc. apply prefix_append.
Qed.

Lemma upgradeDistType_bin k legacyDist cfg cfgBytes :
  DistInfo.Type_ (Dist.DistType legacyDist) = BinDistType →
  upgradeDistType O k legacyDist = Ok (cfg, cfgBytes) →
  cfgBytes = "" ∧ v0.DisterConfig.Config cfg = None.
Proof.
  unfold upgradeDistType. intros ->. simpl.
  destruct (DistInfo.Info (Dist.DistType legacyDist)) as [| |binDist| | | |]; try done.
  destruct (BinDist.OmitInitSh binDist) as [[|]|]; try by intros [= <- <-].
  case_decide; [by intros [= <- <-] | done].
Qed.

(** X13: a bin dist entry is upgraded by the upgrade itself: the dister
    factory is not asked for an upgrader, whatever factory is given, and
    the dister of the upgraded product has no plugin configuration. *)
Theorem bin_dist_needs_no_upgrader disterFactory' productDefaults k legacyProduct legacyDist :
  Product.Dist legacyProduct = [legacyDist] →
  DistInfo.Type_ (Dist.DistType legacyDist) = BinDistType →
  upgradeProduct O disterFactory dockerBuilderFactory publisherFactory
    productDefaults k legacyProduct =
  upgradeProduct O disterFactory' dockerBuilderFactory publisherFactory
    productDefaults k legacyProduct ∧
  ∀ up dist cfg,
    upgradeProduct' productDefaults k legacyProduct = Ok up →
    v0.ProductConfig.Dist up = Some dist →
    v0.DistConfig.Disters dist = Some {[ bin_TypeName O := cfg ]} →
    v0.DisterConfig.Config cfg = None.
Proof.
  intros Hdist Htype.
  assert (∀ df, upgradeDist O df publisherFactory k [legacyDist] =
                '(cfg, _) ← upgradeDistType O k legacyDist;
                match v0.DisterConfig.Type_ (upgradeDistScript legacyDist cfg) with
                | None => Panic NilPointerDereference
                | Some typeName =>
                    publishCfg ← upgradeDistPublish O publisherFactory k
                                   (Dist.Publish legacyDist);
                    Ok (Some {|
                          v0.DistConfig.OutputDir := ptrUnlessEmpty (Dist.OutputDir legacyDist);
                          v0.DistConfig.Disters :=
                            Some {[ typeName := upgradeDistScript legacyDist cfg ]} |},
                        upgradeInputProducts legacyDist, publishCfg)
                end) as Hany.
  { intros df. unfold upgradeDist. rewrite bool_decide_eq_false_2 by (simpl; lia).
    destruct (upgradeDistType O k legacyDist) as [[cfg cfgBytes]| |] eqn:Hswitch; [|done..].
    apply upgradeDistType_bin in Hswitch as [-> _]; [|done].
    rewrite !bind_Ok_l. unfold upgradeDisterConfig.
    by rewrite bool_decide_eq_false_2 by (simpl; lia). }
  split.
  - unfold upgradeProduct.
    destruct (upgradeBuild k (Product.Build legacyProduct)) as [build| |]; [|done..].
    rewrite !bind_Ok_l, Hdist, defaultDist_present, !bind_Ok_l by done.
    by rewrite (Hany disterFactory), (Hany disterFactory').
  - intros up dist cfg Hup Hupdist Hdisters.
    apply upgradeProduct_Ok in Hup
      as (build & legacyDists & dist' & deps0 & publish & docker
          & _ & Hdists & Hupgrade & _ & _ & Hupdist' & _).
    rewrite Hdist, defaultDist_present in Hdists by done. injection Hdists as <-.
    rewrite Hany, bind_Ok in Hupgrade. destruct Hupgrade as ([cfg0 cfgBytes] & Hswitch & Hrest).
    apply upgradeDistType_bin in Hswitch as [_ Hconfig]; [|done].
    destruct (v0.DisterConfig.Type_ _) as [typeName|] eqn:HtypeName; [|done].
    rewrite bind_Ok in Hrest. destruct Hrest as (publishCfg & _ & [= <- _ _]).
    rewrite Hupdist in Hupdist'. injection Hupdist' as ->. cbn [v0.DistConfig.Disters] in Hdisters.
    apply (inj Some) in Hdisters.
    assert (({[typeName := upgradeDistScript legacyDist cfg0]}
               : gmap string v0.DisterConfig.t) !! bin_TypeName O = Some cfg) as Hlookup
      by (rewrite Hdisters; apply lookup_singleton_eq).
    apply lookup_singleton_Some in Hlookup as [_ <-].
    unfold upgradeDistScript. by repeat case_decide.
Qed.

(** ** Panics of the upgrade *)

Lemma forRange_Panic {A B} (body : B → A → Result B) l b p :
  forRange body l b = Panic p → ∃ b' x, x ∈ l ∧ body b' x = Panic p.
Proof.
  revert b. induction l as [|y l IH]; intros b; [done|].
  simpl. rewrite bind_Panic. intros [Hy | (b1 & _ & Hrest)].
  - exists b, y. split; [apply list_elem_of_here | done].
  - destruct (IH _ Hrest) as (b' & x & Hx & Hbody).
    exists b', x. split; [by apply list_elem_of_further | done].
Qed.

Lemma forRangeIndexed_Panic {A B} (body : B → nat → A → Result B) i l b p :
  forRangeIndexed body i l b = Panic p → ∃ b' j x, x ∈ l ∧ body b' j x = Panic p.
Proof.
  revert i b. induction l as [|y l IH]; intros i b; [done|].
  simpl. rewrite bind_Panic. intros [Hy | (b1 & _ & Hrest)].
  - exists b, i, y. split; [apply list_elem_of_here | done].
  - destruct (IH _ _ Hrest) as (b' & j & x & Hx & Hbody).
    exists b', j, x. split; [by apply list_elem_of_further | done].
Qed.

Section panic_facts.
Hypothesis HO : OutsideReturns O.
Hypothesis Hdister : factoryReturns (DisterFactory_ConfigUpgrader disterFactory).
Hypothesis Hbuilder : factoryReturns (DockerBuilderFactory_ConfigUpgrader dockerBuilderFactory).
Hypothesis Hpublisher : factoryReturns (PublisherFactory_ConfigUpgrader publisherFactory).

(** Takes an equation between a step of the upgrade and a panic apart,
    down to the call that panicked. *)
Ltac panic_site :=
  repeat match goal with
  | H : _ ≫= _ = Panic _ |- _ => apply bind_Panic in H as [H | (? & ? & H)]
  | H : wrapf _ _ _ = Panic _ |- _ => apply wrapf_Panic in H
  | H : wrapf _ _ _ = Ok _ |- _ => apply wrapf_Ok in H
  | H : Ok _ = Panic _ |- _ => discriminate H
  | H : Err _ = Panic _ |- _ => discriminate H
  | H : (let '(_, _) := ?x in _) = Panic _ |- _ => destruct x
  | H : (if ?b then _ else _) = Panic _ |- _ => destruct b
  end.

(** The call that panicked is one of those that return. *)
Ltac library_returns :=
  destruct HO as (Hsls & HosArchBin & Hmanual & Hrpm & Halmanac & Himage & Hunmarshal);
  match goal with
  | H : _ = Panic _ |- _ =>
      first [ exact (Hsls _ _ H) | exact (HosArchBin _ _ H) | exact (Hmanual _ _ H)
            | exact (Hrpm _ _ H) | exact (Halmanac _ _ H) | exact (Himage _ _ H)
            | exact (Hunmarshal _ _ H)
            | exact (proj1 (Hdister _) _ H) | exact (proj1 (Hbuilder _) _ H)
            | exact (proj1 (Hpublisher _) _ H)
            | eapply (proj2 (Hdister _)); eassumption
            | eapply (proj2 (Hbuilder _)); eassumption
            | eapply (proj2 (Hpublisher _)); eassumption ]
  end.

Lemma upgradeBuild_returns k legacyBuild : returns (upgradeBuild k legacyBuild).
Proof. unfold upgradeBuild. intros p H. by panic_site. Qed.

Lemma upgradeDistType_returns k legacyDist :
  infoMatchesType (Dist.DistType legacyDist) = true →
  returns (upgradeDistType O k legacyDist).
Proof.
  unfold upgradeDistType, infoMatchesType. cbv zeta. intros Hmatch p.
  repeat case_decide;
    destruct (DistInfo.Info (Dist.DistType legacyDist)) as [| |binDist| | | |];
    try done; intros Hpanic; panic_site; try library_returns.
  by destruct (BinDist.OmitInitSh binDist) as [[|]|]; panic_site.
Qed.

Lemma upgradeDisterConfig_returns k distType cfg cfgBytes :
  returns (upgradeDisterConfig O disterFactory k distType cfg cfgBytes).
Proof. unfold upgradeDisterConfig. intros p H. panic_site; library_returns. Qed.

Lemma upgradeDistPublish_returns k legacyPublish :
  returns (upgradeDistPublish O publisherFactory k legacyPublish).
Proof. unfold upgradeDistPublish. intros p H. panic_site; library_returns. Qed.

Lemma upgradeDist_returns k legacyDists :
  Forall (λ legacyDist, infoMatchesType (Dist.DistType legacyDist) = true) legacyDists →
  returns (upgradeDist O disterFactory publisherFactory k legacyDists).
Proof.
  unfold upgradeDist. intros Hmatch p.
  destruct legacyDists as [|legacyDist rest]; [done|].
  apply Forall_cons in Hmatch as [Hmatch _].
  case_bool_decide; [done|].
  rewrite bind_Panic. intros [Hswitch | ([cfg cfgBytes] & Hswitch & Hrest)].
  { by eapply upgradeDistType_returns. }
  rewrite bind_Panic in Hrest. destruct Hrest as [Hcfg | (cfg' & Hcfg & Hrest)].
  { by eapply upgradeDisterConfig_returns. }
  apply upgradeDistType_Ok in Hswitch as (_ & [typeName HtypeName] & _).
  apply upgradeDisterConfig_Ok in Hcfg as [Hcfg _].
  rewrite upgradeDistScript_Type, Hcfg, HtypeName in Hrest.
  rewrite bind_Panic in Hrest. destruct Hrest as [Hpublish | (? & _ & ?)]; [|done].
  by eapply upgradeDistPublish_returns.
Qed.

Lemma upgradeDockerDep_returns k st dep : returns (upgradeDockerDep k st dep).
Proof.
  unfold upgradeDockerDep. destruct st as [inputDists dependencies].
  intros p H. by panic_site.
Qed.

Lemma upgradeDockerImageInfo_returns k info cfg :
  dataMatchesType info = true →
  returns (upgradeDockerImageInfo O dockerBuilderFactory k info cfg).
Proof.
  unfold upgradeDockerImageInfo, dataMatchesType. intros Hmatch p.
  case_decide; [|done].
  destruct (DockerImageInfo.Data info); try done.
  intros Hpanic. panic_site; library_returns.
Qed.

Lemma upgradeDockerImage_returns k st i image :
  dataMatchesType (DockerImage.Info image) = true →
  returns (upgradeDockerImage O dockerBuilderFactory k st i image).
Proof.
  unfold upgradeDockerImage. destruct st as [builders dependencies]. intros Hmatch p.
  rewrite bind_Panic. intros [Hdeps | ([inputDists dependencies'] & _ & Hrest)].
  - apply forRange_Panic in Hdeps as (st & dep & _ & Hdep).
    by eapply upgradeDockerDep_returns.
  - rewrite bind_Panic in Hrest. destruct Hrest as [Hinfo | (? & _ & ?)]; [|done].
    by eapply upgradeDockerImageInfo_returns.
Qed.

Lemma upgradeDocker_returns k images dependencies :
  Forall (λ image, dataMatchesType (DockerImage.Info image) = true) images →
  returns (upgradeDocker O dockerBuilderFactory k images dependencies).
Proof.
  unfold upgradeDocker. intros Hmatch p. case_bool_decide; [|done].
  rewrite bind_Panic. intros [Hloop | ([? ?] & _ & ?)]; [|done].
  apply forRangeIndexed_Panic in Hloop as (st & i & image & Himage & Hbody).
  rewrite Forall_forall in Hmatch.
  by apply (upgradeDockerImage_returns k st i image (Hmatch _ Himage) p).
Qed.

Lemma defaultDist_Ok_matches legacyDists productBuild legacyDists' :
  Forall (λ legacyDist, infoMatchesType (Dist.DistType legacyDist) = true) legacyDists →
  defaultDist legacyDists productBuild = Ok legacyDists' →
  Forall (λ legacyDist, infoMatchesType (Dist.DistType legacyDist) = true) legacyDists'.
Proof.
  unfold defaultDist. intros Hmatch. case_decide; [|by intros [= <-]].
  destruct productBuild as [build|]; [|done].
  destruct (v0.BuildConfig.OSArchs build) as [osArchs|]; [|by intros [= <-]].
  case_bool_decide; intros [= <-]; [|done].
  by apply Forall_singleton.
Qed.

Lemma upgradeProduct_Panic productDefaults k legacyProduct p :
  payloadsMatchTypes legacyProduct →
  upgradeProduct' productDefaults k legacyProduct = Panic p →
  Build.Skip (Product.Build legacyProduct) = true ∧ Product.Dist legacyProduct = [].
Proof.
  intros [Hdists Himages] Hpanic. unfold upgradeProduct in Hpanic.
  rewrite bind_Panic in Hpanic. destruct Hpanic as [Hbuild | (build & Hbuild & Hrest)].
  { by apply upgradeBuild_returns in Hbuild. }
  rewrite bind_Panic in Hrest. destruct Hrest as [Hdefault | (legacyDists & Hdefault & Hrest)].
  { unfold defaultDist in Hdefault. case_decide as Hlen; [|done].
    split; [|by destruct (Product.Dist legacyProduct)].
    destruct build as [build|].
    - by destruct (v0.BuildConfig.OSArchs build); [case_bool_decide|].
    - unfold upgradeBuild in Hbuild.
      destruct (Build.Skip (Product.Build legacyProduct)); [done|].
      simpl in Hbuild. by case_decide. }
  exfalso. rewrite bind_Panic in Hrest.
  destruct Hrest as [Hdist | ([[dist dependencies] publish] & _ & Hrest)].
  { eapply upgradeDist_returns; [|done]. by eapply defaultDist_Ok_matches. }
  rewrite bind_Panic in Hrest. destruct Hrest as [Hdocker | ([? ?] & _ & ?)]; [|done].
  by eapply upgradeDocker_returns.
Qed.

(** X14: where the YAML library and the plugin upgraders return from
    every call, and the payload of every dist info and docker image info
    is of the struct of its type, as the decoders leave it, the upgrade of
    a product panics in one case only: the build is skipped and the
    product has no dist entry. *)
Theorem upgrade_panics_only_on_skipped_build_without_dist
    productDefaults k legacyProduct :
  payloadsMatchTypes legacyProduct →
  (∃ p, upgradeProduct' productDefaults k legacyProduct = Panic p) ↔
  Build.Skip (Product.Build legacyProduct) = true ∧ Product.Dist legacyProduct = [].
Proof.
  intros Hmatch. split.
  - intros [p Hpanic]. by eapply upgradeProduct_Panic.
  - intros [Hskip Hnone]. eexists. by apply upgradeProduct_skip_no_dist.
Qed.

Lemma forRange_upgradeProductAt_Panic legacyCfg productDefaults keys products p :
  forRange (upgradeProductAt' legacyCfg productDefaults) keys (Some products) = Panic p →
  ∃ k, k ∈ keys ∧
    upgradeProduct' productDefaults k
      (default Product_zero (Project.Products legacyCfg !! k)) = Panic p.
Proof.
  revert products. induction keys as [|k keys IH]; intros products; [done|].
  rewrite forRange_cons, bind_Panic. intros [Hk | (products' & Hk & Hrest)].
  - exists k. split; [apply list_elem_of_here|].
    unfold upgradeProductAt in Hk. rewrite bind_Panic in Hk.
    by destruct Hk as [Hk | (? & _ & ?)].
  - unfold upgradeProductAt in Hk. rewrite bind_Ok in Hk.
    destruct Hk as (up & _ & [= <-]).
    destruct (IH _ Hrest) as (k' & Hk' & Hpanic).
    exists k'. split; [by apply list_elem_of_further | done].
Qed.

(** X15: under the same conditions, the upgrade of a configuration in
    which every product has a build that is not skipped or a dist entry
    returns: with the upgraded configuration or with an error.  The
    products map is made before the first product is stored. *)
Theorem upgradeLegacyConfig_returns legacyCfg :
  (∀ k legacyProduct,
     Project.Products legacyCfg !! k = Some legacyProduct →
     payloadsMatchTypes legacyProduct ∧
     (Build.Skip (Product.Build legacyProduct) = false ∨
      Product.Dist legacyProduct ≠ [])) →
  returns (upgradeLegacyConfig' legacyCfg).
Proof.
  intros Hproducts p. unfold upgradeLegacyConfig. cbv zeta.
  rewrite bind_Panic. intros [Hloop | (? & _ & ?)]; [|done].
  case_bool_decide as Hkeys.
  - apply forRange_upgradeProductAt_Panic in Hloop as (k & Hk & Hpanic).
    apply elem_of_sortedProductsKeys in Hk as [legacyProduct Hlookup].
    rewrite Hlookup in Hpanic. cbn [default from_option id] in Hpanic.
    destruct (Hproducts _ _ Hlookup) as [Hmatch Hbuild].
    apply upgradeProduct_Panic in Hpanic as [Hskip Hnone]; [|done].
    destruct Hbuild; congruence.
  - destruct (sortedProductsKeys legacyCfg); [done | simpl in Hkeys; lia].
Qed.

End panic_facts.

(** ** The entry point *)

Local Abbreviation UpgradeConfig' :=
  (UpgradeConfig O disterFactory dockerBuilderFactory publisherFactory).


(** ** Fields the upgrade does not read *)




End error_facts.

(** ** No legacy reference is left by the rewriting *)

Section no_reference_facts.
Implicit Types s t u a b w old new : string.

Lemma prefix_split t s : String.prefix t s = true → ∃ u, s = t +:+ u.
Proof.
  revert s. induction t as [|d t IH]; intros s; [by exists s|].
  destruct s as [|x s]; [done|]. rewrite prefix_String.
  intros [->%bool_decide_eq_true [u ->]%IH]%andb_true_iff. by exists u.
Qed.

(** Text in which no instance of the pattern can start holds none. *)
Lemma Contains_clean old w u :
  clean old w = true → strings.Contains (w +:+ u) old = strings.Contains u old.
Proof.
  induction w as [|x w IH]; [done|].
  simpl clean. intros [Hm Hw]%andb_true_iff.
  change (strings.Contains (String x w +:+ u) old)
    with (String.prefix old (String x w +:+ u) || strings.Contains (w +:+ u) old).
  by rewrite (mismatch_prefix _ _ _ Hm), IH.
Qed.

Lemma Contains_app_prefix a b old :
  strings.Contains (a +:+ b) old = false → String.prefix old b = false.
Proof.
  induction a as [|x a IH].
  - destruct b; simpl; unfold strings.HasPrefix; by intros [? _]%orb_false_iff.
  - change (strings.Contains (String x a +:+ b) old)
      with (strings.HasPrefix (String x a +:+ b) old || strings.Contains (a +:+ b) old).
    by intros [_ ?%IH]%orb_false_iff.
Qed.

(** A prefix test with text that lacks the first byte of the pattern and
    of its replacement sees the rewritten text as it saw the text. *)
Lemma prefix_Replace c t n t' s :
  occurs c t' = false →
  String.prefix t' (strings.Replace s (String c t) (String c n)) = String.prefix t' s.
Proof.
  unfold strings.Replace. revert t'. induction s as [|x s IH]; intros t' Hc; [done|].
  rewrite Replace_from_O. unfold strings.HasPrefix. rewrite prefix_String.
  destruct t' as [|d t']; [by destruct (_ && _)|].
  simpl in Hc. apply orb_false_iff in Hc as [Hcd%bool_decide_eq_false Hc].
  destruct (bool_decide (c = x) && String.prefix t s) eqn:Hp.
  - apply andb_true_iff in Hp as [<-%bool_decide_eq_true _].
    change (String c n +:+ ?r) with (String c (n +:+ r)).
    rewrite !prefix_String. by rewrite !bool_decide_eq_false_2 by congruence.
  - rewrite !prefix_String. by rewrite IH.
Qed.

(** Where the replacement cannot be taken for an instance of a second
    pattern, and every instance of the second pattern in the text is one
    of the replaced pattern, the rewritten text holds no instance of the
    second pattern. *)
Lemma Contains_Replace c t n t' s :
  occurs c t' = false →
  clean (String c t') (String c n) = true →
  (∀ a b, s = a +:+ b →
     String.prefix (String c t') b = true → String.prefix (String c t) b = true) →
  strings.Contains (strings.Replace s (String c t) (String c n)) (String c t') = false.
Proof.
  intros Hc Hclean. remember (String.length s) as m eqn:Hm.
  assert (String.length s ≤ m) as Hlen by lia. clear Hm. revert s Hlen.
  induction m as [|m IH]; intros s Hlen Hinst.
  { by destruct s; [|simpl in Hlen; lia]. }
  destruct s as [|x s]; [done|].
  destruct (String.prefix (String c t) (String x s)) eqn:Hp.
  - destruct (prefix_split _ _ Hp) as [u Hu]. rewrite Hu, Replace_instance.
    rewrite Contains_clean by done. apply IH.
    + apply (f_equal String.length) in Hu. rewrite length_append in Hu.
      simpl in Hu, Hlen. lia.
    + intros a b ->. apply (Hinst (String c t +:+ a) b). by rewrite Hu, append_assoc.
  - unfold strings.Replace. rewrite Replace_from_O. unfold strings.HasPrefix at 1.
    rewrite Hp. fold (strings.Replace s (String c t) (String c n)).
    change (strings.Contains (String x ?r) ?old)
      with (String.prefix old (String x r) || strings.Contains r old).
    rewrite IH.
    + rewrite orb_false_r, prefix_String, prefix_Replace, <-prefix_String by done.
      destruct (String.prefix (String c t') (String x s)) eqn:Hp'; [|done].
      by rewrite (Hinst "" (String x s) eq_refl Hp') in Hp.
    + simpl in Hlen. lia.
    + intros a b ->. apply (Hinst (String x a) b eq_refl).
Qed.

(** X18: the text [translateEnvVars] returns holds no [$DIST_DIR] and no
    [${DIST_DIR}], whatever the text it is given, so that renaming the
    variable in it again changes nothing. *)
Theorem translateEnvVars_leaves_no_reference s :
  strings.Contains (translateEnvVars s) "$DIST_DIR" = false ∧
  strings.Contains (translateEnvVars s) "${DIST_DIR}" = false ∧
  translateVar (translateEnvVars s) "DIST_DIR" "DIST_WORK_DIR" = translateEnvVars s.
Proof.
  assert (∀ s0, strings.Contains (translateVar s0 "DIST_DIR" "DIST_WORK_DIR") "$DIST_DIR" = false
                ∧ strings.Contains (translateVar s0 "DIST_DIR" "DIST_WORK_DIR") "${DIST_DIR}"
                  = false) as Hnone.
  { intros s0.
    change (translateVar s0 "DIST_DIR" "DIST_WORK_DIR")
      with (strings.Replace (strings.Replace s0 "$DIST_DIR" "$DIST_WORK_DIR")
              "${DIST_DIR}" "${DIST_WORK_DIR}").
    pose proof (Contains_Replace "$" "DIST_DIR" "DIST_WORK_DIR" "DIST_DIR" s0
                  eq_refl eq_refl (λ _ _ _ Hp, Hp)) as Hfirst.
    split.
    - apply (Contains_Replace "$" "{DIST_DIR}" "{DIST_WORK_DIR}" "DIST_DIR"); [done..|].
      intros a b Hab Hp. rewrite Hab in Hfirst.
      apply Contains_app_prefix in Hfirst. congruence.
    - by apply (Contains_Replace "$" "{DIST_DIR}" "{DIST_WORK_DIR}" "{DIST_DIR}"). }
  assert (strings.Contains (translateEnvVars s) "$DIST_DIR" = false ∧
          strings.Contains (translateEnvVars s) "${DIST_DIR}" = false) as [H1 H2].
  { unfold translateEnvVars. cbv zeta. apply Hnone. }
  split_and!; [done..|].
  change (translateVar (translateEnvVars s) "DIST_DIR" "DIST_WORK_DIR")
    with (strings.Replace (strings.Replace (translateEnvVars s) "$DIST_DIR" "$DIST_WORK_DIR")
            "${DIST_DIR}" "${DIST_WORK_DIR}").
  by rewrite (Replace_absent _ _ _ H1), Replace_absent.
Qed.
End no_reference_facts.

(** ** The configuration of the plugins *)

Section plugin_facts.
Context (O : Outside).
Context (disterFactory : DisterFactory).
Context (dockerBuilderFactory : DockerBuilderFactory).
Context (publisherFactory : PublisherFactory).

Local Abbreviation upgradeProduct' :=
  (upgradeProduct O disterFactory dockerBuilderFactory publisherFactory).

Lemma length_pos_nonempty (s : string) : 0 < String.length s ↔ s ≠ "".
Proof. destruct s; simpl; split; [lia | done | done | lia]. Qed.

(** The chain of calls that hands marshalled legacy bytes to a plugin. *)
Lemma upgradedByPlugin_Ok {A} lookup legacyBytes (f : MapSlice → A) k format1 format2 format3 a :
  (upgrader ← wrapf lookup format1 [k];
   upgradedBytes ← wrapf (ConfigUpgrader_UpgradeConfig upgrader legacyBytes) format2 [k];
   cfgMapSlice ← wrapf (yaml_UnmarshalStrict_MapSlice O upgradedBytes) format3 [k];
   Ok (f cfgMapSlice)) = Ok a →
  ∃ cfgMapSlice, upgradedByPlugin O lookup legacyBytes cfgMapSlice ∧ a = f cfgMapSlice.
Proof.
  rewrite bind_Ok. intros (upgrader & Hlookup%wrapf_Ok & Hrest).
  rewrite bind_Ok in Hrest. destruct Hrest as (upgradedBytes & Hupgrade%wrapf_Ok & Hrest).
  rewrite bind_Ok in Hrest. destruct Hrest as (cfgMapSlice & Hdecode%wrapf_Ok & [= <-]).
  exists cfgMapSlice. split; [|done]. by exists upgrader, upgradedBytes.
Qed.

Lemma upgradeDistType_marshal k legacyDist cfg cfgBytes :
  DistInfo.Type_ (Dist.DistType legacyDist) ≠ BinDistType →
  upgradeDistType O k legacyDist = Ok (cfg, cfgBytes) →
  marshalLegacyDist O (DistInfo.Info (Dist.DistType legacyDist)) = Ok cfgBytes ∧
  v0.DisterConfig.Config cfg = None.
Proof.
  unfold upgradeDistType. cbv zeta. intros Hbin.
  repeat case_decide; try done;
    destruct (DistInfo.Info (Dist.DistType legacyDist)); try done;
    rewrite bind_Ok; by intros (bytes & Hbytes%wrapf_Ok & [= <- <-]).
Qed.

Lemma upgradeDisterConfig_Config k distType cfg cfgBytes cfg' :
  v0.DisterConfig.Config cfg = None →
  upgradeDisterConfig O disterFactory k distType cfg cfgBytes = Ok cfg' →
  match v0.DisterConfig.Config cfg' with
  | None => cfgBytes = ""
  | Some cfgMapSlice =>
      cfgBytes ≠ "" ∧
      upgradedByPlugin O (DisterFactory_ConfigUpgrader disterFactory distType)
        cfgBytes cfgMapSlice
  end.
Proof.
  unfold upgradeDisterConfig. intros Hnone. case_bool_decide as Hlen.
  - intros (cfgMapSlice & Hplugin & ->)%upgradedByPlugin_Ok. simpl.
    split; [by apply length_pos_nonempty | done].
  - intros [= <-]. rewrite Hnone. destruct cfgBytes; [done | simpl in Hlen; lia].
Qed.

Lemma upgradeDistScript_Config legacyDist cfg :
  v0.DisterConfig.Config (upgradeDistScript legacyDist cfg) = v0.DisterConfig.Config cfg.
Proof. unfold upgradeDistScript. by repeat case_decide. Qed.

(** X19: the dister of an upgraded product whose one dist entry is not
    of type bin has as its plugin configuration what the upgrader the
    dister factory has for the type makes of the payload of the entry,
    marshalled with the legacy flag set; it has none when the marshalled
    payload is empty, and the factory is then not asked. *)
Theorem dister_configuration_is_upgraded_by_plugin
    productDefaults k legacyProduct legacyDist up :
  Product.Dist legacyProduct = [legacyDist] →
  DistInfo.Type_ (Dist.DistType legacyDist) ≠ BinDistType →
  upgradeProduct' productDefaults k legacyProduct = Ok up →
  ∃ typeName dist cfg legacyBytes,
    v0.ProductConfig.Dist up = Some dist ∧
    v0.DistConfig.Disters dist = Some {[ typeName := cfg ]} ∧
    marshalLegacyDist O (DistInfo.Info (Dist.DistType legacyDist)) = Ok legacyBytes ∧
    match v0.DisterConfig.Config cfg with
    | None => legacyBytes = ""
    | Some cfgMapSlice =>
        legacyBytes ≠ "" ∧
        upgradedByPlugin O
          (DisterFactory_ConfigUpgrader disterFactory (DistInfo.Type_ (Dist.DistType legacyDist)))
          legacyBytes cfgMapSlice
    end.
Proof.
  intros Hdist Hbin Hup.
  apply upgradeProduct_Ok in Hup
    as (build & legacyDists & dist & deps0 & publish & docker
        & _ & Hdists & Hupgrade & _ & _ & Hupdist & _).
  rewrite Hdist, defaultDist_present in Hdists by done. injection Hdists as <-.
  unfold upgradeDist in Hupgrade. rewrite bool_decide_eq_false_2 in Hupgrade by (simpl; lia).
  rewrite bind_Ok in Hupgrade. destruct Hupgrade as ([cfg0 cfgBytes] & Hswitch & Hrest).
  apply upgradeDistType_marshal in Hswitch as [Hmarshal Hnone]; [|done].
  rewrite bind_Ok in Hrest. destruct Hrest as (cfg1 & Hcfg1 & Hrest).
  apply upgradeDisterConfig_Config in Hcfg1; [|done].
  destruct (v0.DisterConfig.Type_ _) as [typeName|]; [|done].
  rewrite bind_Ok in Hrest. destruct Hrest as (publishCfg & _ & [= <- _ _]).
  eexists typeName, _, (upgradeDistScript legacyDist cfg1), cfgBytes.
  split_and!; [done | done | done |]. by rewrite upgradeDistScript_Config.
Qed.





(** X21: the publish configuration of an upgraded product whose one dist
    entry has Almanac tags or metadata has the one publisher
    artifactory-almanac, configured with what the upgrader the publisher
    factory has for it makes of the Almanac configuration of the entry,
    marshalled with the legacy flag set. *)
Theorem almanac_configuration_is_upgraded_by_plugin
    productDefaults k legacyProduct legacyDist up :
  Product.Dist legacyProduct = [legacyDist] →
  Almanac.Tags (Publish.Almanac (Dist.Publish legacyDist)) ≠ [] ∨
    Almanac.Metadata (Publish.Almanac (Dist.Publish legacyDist)) ≠ ∅ →
  upgradeProduct' productDefaults k legacyProduct = Ok up →
  ∃ publishCfg legacyBytes cfgMapSlice,
    v0.ProductConfig.Publish up = Some publishCfg ∧
    yaml_Marshal_Almanac O
      (Almanac.set_Legacy true (Publish.Almanac (Dist.Publish legacyDist))) = Ok legacyBytes ∧
    upgradedByPlugin O
      (PublisherFactory_ConfigUpgrader publisherFactory "artifactory-almanac")
      legacyBytes cfgMapSlice ∧
    v0.PublishConfig.PublishInfo publishCfg =
      Some {[ "artifactory-almanac" := {| v0.PublisherConfig.Config := Some cfgMapSlice |} ]}.
Proof.
  intros Hone Halmanac. unfold upgradeProduct.
  rewrite bind_Ok. intros (build & Hbuild & Hrest).
  rewrite bind_Ok in Hrest. destruct Hrest as (legacyDists & Hdists & Hrest).
  rewrite bind_Ok in Hrest. destruct Hrest as ([[dist dependencies0] publish] & Hdist & Hrest).
  rewrite bind_Ok in Hrest. destruct Hrest as ([docker dependencies] & Hdocker & [= <-]).
  rewrite Hone, defaultDist_present in Hdists by done. injection Hdists as <-.
  unfold upgradeDist in Hdist. rewrite bool_decide_eq_false_2 in Hdist by (simpl; lia).
  rewrite bind_Ok in Hdist. destruct Hdist as ([cfg0 cfgBytes] & _ & Hdist).
  rewrite bind_Ok in Hdist. destruct Hdist as (cfg1 & _ & Hdist).
  destruct (v0.DisterConfig.Type_ _) as [typeName|]; [|done].
  rewrite bind_Ok in Hdist. destruct Hdist as (publishCfg & Hpublish & [= _ _ <-]).
  unfold upgradeDistPublish in Hpublish. cbv zeta in Hpublish.
  set (almanac := Publish.Almanac (Dist.Publish legacyDist)) in *.
  assert (bool_decide (0 < length (Almanac.Tags almanac))
          || bool_decide (0 < size (Almanac.Metadata almanac)) = true) as Hsome.
  { apply orb_true_iff. rewrite !bool_decide_eq_true.
    destruct Halmanac as [Htags | Hmetadata].
    - left. destruct (Almanac.Tags almanac); [done | simpl; lia].
    - right. assert (size (Almanac.Metadata almanac) ≠ 0) by (by rewrite map_size_empty_iff).
      lia. }
  rewrite Hsome in Hpublish.
  rewrite bind_Ok in Hpublish. destruct Hpublish as (legacyBytes & Hmarshal%wrapf_Ok & Hrest).
  apply upgradedByPlugin_Ok in Hrest as (cfgMapSlice & Hplugin & ->).
  eexists _, legacyBytes, cfgMapSlice. cbn [v0.ProductConfig.Publish].
  split_and!; [by destruct (v0.ProductConfig.Publish productDefaults) | done | done |].
  cbn [v0.PublishConfig.PublishInfo]. f_equal.
  by destruct (decide (Publish.GroupID (Dist.Publish legacyDist) = "")).
Qed.

End plugin_facts.

(** ** The further properties on concrete configurations *)

Lemma unknown_dist_type_is_rejected_witness :
  standInUpgradeProduct v0.ProductConfig.empty "foo"
    (productOf Build_zero [Dist.mk "" "" [] "" (DistInfo.mk "" DistInfo.Info_nil) Publish_zero])
  = Err (errors_Errorf "product %q specifies unsupported dist type %q" ["foo"; ""]).
Proof.
  apply (unknown_dist_type_is_rejected standInOutside standInDisterFactory
           standInDockerBuilderFactory standInPublisherFactory v0.ProductConfig.empty "foo"
           (productOf Build_zero
              [Dist.mk "" "" [] "" (DistInfo.mk "" DistInfo.Info_nil) Publish_zero])
           (Dist.mk "" "" [] "" (DistInfo.mk "" DistInfo.Info_nil) Publish_zero));
    [reflexivity | reflexivity | right; reflexivity].
Defined.

Lemma upgrade_errors_name_the_product_witness :
  ∃ e,
    standInUpgradeProduct v0.ProductConfig.empty "c" productBinaryDep = Err e ∧
    "c" ∈ error_args e.
Proof.
  assert (∃ e, standInUpgradeProduct v0.ProductConfig.empty "c" productBinaryDep = Err e)
    as [e He] by (eexists; vm_compute; reflexivity).
  exists e. split; [exact He|].
  exact (proj1 (upgrade_errors_name_the_product standInOutside standInDisterFactory
                  standInDockerBuilderFactory standInPublisherFactory)
           v0.ProductConfig.empty "c" productBinaryDep e He).
Defined.




Lemma docker_dependency_types_witness :
  ∃ dependencies',
    forRange (upgradeDockerDep "c")
      [DockerDep.mk "b" "docker" ""; DockerDep.mk "b" "bin" ""; DockerDep.mk "a" "docker" ""]
      (None, None) = Ok (Some ["b.bin"], dependencies').
Proof.
  assert (Forall knownDockerDepType
            [DockerDep.mk "b" "docker" ""; DockerDep.mk "b" "bin" "";
             DockerDep.mk "a" "docker" ""]) as Hknown
    by (repeat constructor).
  destruct (proj1 (docker_dependency_types "c" _ None) Hknown) as [dependencies' Hloop].
  exists dependencies'. rewrite Hloop. reflexivity.
Defined.

Lemma docker_builders_of_images_witness :
  ∃ docker dependencies',
    upgradeDocker standInOutside standInDockerBuilderFactory "c"
      (Product.DockerImages productBinDep) None = Ok (docker, dependencies') ∧
    ∃ builders,
      docker = Some {| v0.DockerConfig.DockerBuildersConfig := Some builders |} ∧
      size builders = 1.
Proof.
  assert (∃ docker dependencies',
            upgradeDocker standInOutside standInDockerBuilderFactory "c"
              (Product.DockerImages productBinDep) None = Ok (docker, dependencies'))
    as (docker & dependencies' & Hdocker) by (do 2 eexists; vm_compute; reflexivity).
  exists docker, dependencies'. split; [exact Hdocker|].
  destruct (proj2 (docker_builders_of_images standInOutside standInDockerBuilderFactory
                     "c" _ None docker dependencies' Hdocker))
    as (builders & Hbuilders & Hsize & _); [discriminate|].
  exists builders. split; [exact Hbuilders | exact Hsize].
Defined.

Lemma dist_script_of_every_dist_type_witness :
  ∃ up,
    standInUpgradeProduct v0.ProductConfig.empty "foo"
      (productOf Build_zero [manualDistWithScript]) = Ok up ∧
    ∃ typeName dist cfg,
      v0.ProductConfig.Dist up = Some dist ∧
      v0.DistConfig.OutputDir dist = Some "out" ∧
      v0.DistConfig.Disters dist = Some {[ typeName := cfg ]} ∧
      v0.DisterConfig.Script cfg = Some (appendToScript "" "echo done").
Proof.
  assert (∃ up, standInUpgradeProduct v0.ProductConfig.empty "foo"
                  (productOf Build_zero [manualDistWithScript]) = Ok up)
    as [up Hup] by (eexists; vm_compute; reflexivity).
  exists up. split; [exact Hup|].
  destruct (dist_script_of_every_dist_type standInOutside standInDisterFactory
              standInDockerBuilderFactory standInPublisherFactory v0.ProductConfig.empty
              "foo" (productOf Build_zero [manualDistWithScript]) manualDistWithScript
              up eq_refl Hup)
    as (typeName & dist & cfg & Hdist & Hout & Hdisters & Hscript & _).
  exists typeName, dist, cfg. split_and!; [exact Hdist | exact Hout | exact Hdisters |].
  rewrite Hscript. reflexivity.
Defined.

Lemma bin_dist_needs_no_upgrader_witness :
  upgradeProduct standInOutside standInDisterFactory standInDockerBuilderFactory
    standInPublisherFactory v0.ProductConfig.empty "foo"
    (productOf Build_zero [binDistEntry (Some false) "" "echo done"]) =
  upgradeProduct standInOutside noUpgraderDisterFactory
    standInDockerBuilderFactory standInPublisherFactory v0.ProductConfig.empty "foo"
    (productOf Build_zero [binDistEntry (Some false) "" "echo done"]).
Proof.
  apply (bin_dist_needs_no_upgrader standInOutside standInDisterFactory
           standInDockerBuilderFactory standInPublisherFactory noUpgraderDisterFactory
           v0.ProductConfig.empty "foo"
           (productOf Build_zero [binDistEntry (Some false) "" "echo done"])
           (binDistEntry (Some false) "" "echo done") eq_refl eq_refl).
Defined.

Lemma upgrade_panics_only_on_skipped_build_without_dist_witness :
  ¬ ∃ p, standInUpgradeProduct v0.ProductConfig.empty "foo"
           (productOf buildSkippedWithScript [binDistEntry None "" ""]) = Panic p.
Proof.
  intros Hpanic.
  assert (OutsideReturns standInOutside) as HO by (repeat split; intros ? ? [=]).
  assert (∀ lookup, lookup = (λ _ : string, Ok identityUpgrader) → factoryReturns lookup)
    as Hfactory.
  { intros lookup -> typeName. split; [intros ? [=]|]. intros upgrader cfgBytes [= <-] ? [=]. }
  assert (payloadsMatchTypes (productOf buildSkippedWithScript [binDistEntry None "" ""]))
    as Hmatch by (split; repeat constructor).
  destruct (proj1 (upgrade_panics_only_on_skipped_build_without_dist standInOutside
                     standInDisterFactory standInDockerBuilderFactory standInPublisherFactory
                     HO (Hfactory _ eq_refl) (Hfactory _ eq_refl) (Hfactory _ eq_refl)
                     v0.ProductConfig.empty "foo" _ Hmatch) Hpanic) as [_ Hnone].
  discriminate Hnone.
Defined.

Lemma upgradeLegacyConfig_returns_witness :
  returns (standInUpgradeLegacyConfig
             (projectOf "foo" (productOf buildSkippedWithScript [binDistEntry None "" ""]))).
Proof.
  assert (OutsideReturns standInOutside) as HO by (repeat split; intros ? ? [=]).
  assert (∀ lookup, lookup = (λ _ : string, Ok identityUpgrader) → factoryReturns lookup)
    as Hfactory.
  { intros lookup -> typeName. split; [intros ? [=]|]. intros upgrader cfgBytes [= <-] ? [=]. }
  apply (upgradeLegacyConfig_returns standInOutside standInDisterFactory
           standInDockerBuilderFactory standInPublisherFactory
           HO (Hfactory _ eq_refl) (Hfactory _ eq_refl) (Hfactory _ eq_refl)).
  intros k legacyProduct Hlookup.
  change (({[ "foo" := productOf buildSkippedWithScript [binDistEntry None "" ""] ]}
             : gmap string Product.t) !! k = Some legacyProduct) in Hlookup.
  apply lookup_singleton_Some in Hlookup as [_ <-].
  split; [split; repeat constructor | right; discriminate].
Defined.


Lemma dister_configuration_is_upgraded_by_plugin_witness :
  ∃ up,
    standInUpgradeProduct v0.ProductConfig.empty "foo"
      (productOf Build_zero [manualDistEntry]) = Ok up ∧
    ∃ typeName dist cfg,
      v0.ProductConfig.Dist up = Some dist ∧
      v0.DistConfig.Disters dist = Some {[ typeName := cfg ]} ∧
      v0.DisterConfig.Config cfg ≠ None.
Proof.
  assert (∃ up, standInUpgradeProduct v0.ProductConfig.empty "foo"
                  (productOf Build_zero [manualDistEntry]) = Ok up)
    as [up Hup] by (eexists; vm_compute; reflexivity).
  exists up. split; [exact Hup|].
  assert (DistInfo.Type_ (Dist.DistType manualDistEntry) ≠ BinDistType) as Hbin
    by discriminate.
  destruct (dister_configuration_is_upgraded_by_plugin standInOutside standInDisterFactory
              standInDockerBuilderFactory standInPublisherFactory v0.ProductConfig.empty
              "foo" (productOf Build_zero [manualDistEntry]) manualDistEntry up
              eq_refl Hbin Hup)
    as (typeName & dist & cfg & legacyBytes & Hdist & Hdisters & Hmarshal & Hconfig).
  exists typeName, dist, cfg. split_and!; [exact Hdist | exact Hdisters |].
  injection Hmarshal as <-. destruct (v0.DisterConfig.Config cfg); [discriminate|].
  discriminate Hconfig.
Defined.


Lemma almanac_configuration_is_upgraded_by_plugin_witness :
  ∃ up,
    standInUpgradeProduct v0.ProductConfig.empty "foo"
      (productOf Build_zero [binDistWithAlmanacTag]) = Ok up ∧
    ∃ publishCfg cfgMapSlice,
      v0.ProductConfig.Publish up = Some publishCfg ∧
      v0.PublishConfig.PublishInfo publishCfg =
        Some {[ "artifactory-almanac" :=
                  {| v0.PublisherConfig.Config := Some cfgMapSlice |} ]}.
Proof.
  assert (∃ up, standInUpgradeProduct v0.ProductConfig.empty "foo"
                  (productOf Build_zero [binDistWithAlmanacTag]) = Ok up)
    as [up Hup] by (eexists; vm_compute; reflexivity).
  exists up. split; [exact Hup|].
  assert (Almanac.Tags (Publish.Almanac (Dist.Publish binDistWithAlmanacTag)) ≠ [] ∨
          Almanac.Metadata (Publish.Almanac (Dist.Publish binDistWithAlmanacTag)) ≠ ∅)
    as Halmanac by (left; discriminate).
  destruct (almanac_configuration_is_upgraded_by_plugin standInOutside standInDisterFactory
              standInDockerBuilderFactory standInPublisherFactory v0.ProductConfig.empty
              "foo" (productOf Build_zero [binDistWithAlmanacTag]) binDistWithAlmanacTag up
              eq_refl Halmanac Hup)
    as (publishCfg & legacyBytes & cfgMapSlice & Hpublish & _ & _ & Hinfo).
  exists publishCfg, cfgMapSlice. split; [exact Hpublish | exact Hinfo].
Defined.
